(** * EcoQuest meal tracking: the CO2 / points calculator of [EcoMealsView]

    Shallow embedding of the two calculator methods of
    [src/ecomeals_coding_sample.py] (their bodies are repeated verbatim in
    [src/airbnb_ecomeals_coding_sample.py]):

    - [calculate_co2_reduced]     (lines 97-124, resp. 79-99)
    - [calculate_ecomeals_points] (lines 126-140, resp. 101-109)

    Python integers are [Z].  The request payload is a dictionary from
    strings to booleans, a [gmap string bool]; subscripting a missing key
    raises [KeyError].  Python's [float] is IEEE 754 binary64; it is
    modelled by the Standard Library's [spec_float] at precision 53 and
    maximal exponent 1024, whose operations are ordinary functions on [Z]. *)

From Stdlib Require Import ZArith Lia Bool.
From Stdlib Require Import Floats.SpecFloat.
From stdpp Require Import gmap strings.

Local Open Scope Z_scope.

(** ** Exceptions and results *)

Inductive exn : Type :=
  | KeyError (key : string)
  | ZeroDivisionError
  | OverflowError
  | ValueError.

Inductive result (A : Type) : Type :=
  | Ok (a : A)
  | Raise (e : exn).

Arguments Ok {A} a.
Arguments Raise {A} e.

(** Sequencing: the first exception raised aborts the computation. *)
Definition bind {A B : Type} (r : result A) (k : A -> result B) : result B :=
  match r with
  | Ok a => k a
  | Raise e => Raise e
  end.

Notation "'do' x <- r ; k" := (bind r (fun x => k))
  (at level 10, x name, r at level 100, k at level 200,
   format "'[v' 'do'  x  <-  r ; '/' k ']'").

(** ** Python primitives used by the view *)

Module Py.

(** [d[key]] on a dictionary. *)
Definition getitem (d : gmap string bool) (key : string) : result bool :=
  match d !! key with
  | Some v => Ok v
  | None => Raise (KeyError key)
  end.

(** binary64 *)
Definition prec : Z := 53.
Definition emax : Z := 1024.

(** An integer seen as an unrounded binary number [n * 2^0]. *)
Definition exact (n : Z) : spec_float :=
  match n with
  | Z0 => S754_zero false
  | Zpos p => S754_finite false p 0
  | Zneg p => S754_finite true p 0
  end.

(** [a / b] on two integers: the quotient rounded once, to nearest even;
    [ZeroDivisionError] for a zero divisor and [OverflowError] when the
    quotient exceeds the binary64 range. *)
Definition truediv (a b : Z) : result spec_float :=
  if b =? 0 then Raise ZeroDivisionError
  else
    match SFdiv prec emax (exact a) (exact b) with
    | S754_infinity _ => Raise OverflowError
    | q => Ok q
    end.

(** [float(n)], the conversion applied to the integer operand of a mixed
    [float * int]. *)
Definition float_of_int (n : Z) : result spec_float :=
  match binary_normalize prec emax n 0 false with
  | S754_infinity _ => Raise OverflowError
  | x => Ok x
  end.

(** [x * n] with [x] a float and [n] an integer: no exception on overflow
    of the product, which is an infinity. *)
Definition mul_int (x : spec_float) (n : Z) : result spec_float :=
  do y <- float_of_int n;
  Ok (SFmul prec emax x y).

(** [math.floor(x)]: the largest integer below [x], as an exact integer. *)
Definition floor (x : spec_float) : result Z :=
  match x with
  | S754_zero _ => Ok 0
  | S754_finite s m e => Ok (Z.shiftl (cond_Zopp s (Zpos m)) e)
  | S754_infinity _ => Raise OverflowError
  | S754_nan => Raise ValueError
  end.

End Py.

(** ** Module constants of the view *)

(** Points awarded for every 100 grams of CO2 emissions reduced. *)
Definition POINTS_AWARDED_100GCO2 : Z := 50.

(** Declared by [ecomeals_coding_sample.py] only and read by neither file:
    the conversion divides by the literal [100]. *)
Definition CO2_REDUCTION_FACTOR : Z := 100.

(** Total carbon footprint of a meal, in grams of CO2-equivalent. *)

Definition CO2E_PLANTBASED_BREAKFAST_GRAMS : Z := 1100.
Definition CO2E_PLANTBASED_LUNCH_GRAMS : Z := 980.
Definition CO2E_PLANTBASED_DINNER_GRAMS : Z := 1100.

Definition CO2E_MEATBASED_BREAKFAST_GRAMS : Z := 2600.
Definition CO2E_MEATBASED_LUNCH_GRAMS : Z := 3800.
Definition CO2E_MEATBASED_DINNER_GRAMS : Z := 4800.

(** ** The calculator *)

(** [EcoMealsView.calculate_co2_reduced]: an [if / elif / elif] chain over
    the three flags; a later flag is only read when the earlier ones are
    false. *)
Definition calculate_co2_reduced (user_ecomeals_input : gmap string bool)
  : result Z :=
  let co2_reduced := 0 in
  do eco_breakfast <- Py.getitem user_ecomeals_input "eco_breakfast";
  if eco_breakfast
  then Ok (CO2E_MEATBASED_BREAKFAST_GRAMS - CO2E_PLANTBASED_BREAKFAST_GRAMS)
  else
    do eco_lunch <- Py.getitem user_ecomeals_input "eco_lunch";
    if eco_lunch
    then Ok (CO2E_MEATBASED_LUNCH_GRAMS - CO2E_PLANTBASED_LUNCH_GRAMS)
    else
      do eco_dinner <- Py.getitem user_ecomeals_input "eco_dinner";
      if eco_dinner
      then Ok (CO2E_MEATBASED_DINNER_GRAMS - CO2E_PLANTBASED_DINNER_GRAMS)
      else Ok co2_reduced.

(** [EcoMealsView.calculate_ecomeals_points]:
    [math.floor(user_co2_reduced / 100 * POINTS_AWARDED_100GCO2)]. *)
Definition calculate_ecomeals_points (user_co2_reduced : Z) : result Z :=
  do q <- Py.truediv user_co2_reduced 100;
  do p <- Py.mul_int q POINTS_AWARDED_100GCO2;
  Py.floor p.

(** The formula of the specification, [floor(n / 100 * 50)], evaluated on
    exact rationals: the integer quotient of [n * 50] by [100]. *)
Definition exact_points (n : Z) : Z := n * POINTS_AWARDED_100GCO2 / 100.

(** A payload carrying the three flags. *)
Definition selection (eco_breakfast eco_lunch eco_dinner : bool)
  : gmap string bool :=
  <["eco_breakfast" := eco_breakfast]>
    (<["eco_lunch" := eco_lunch]>
       (<["eco_dinner" := eco_dinner]> ∅)).

(** A dictionary is a well-formed meal selection when the three flags are
    present. *)
Definition well_formed (d : gmap string bool) : Prop :=
  is_Some (d !! "eco_breakfast") /\
  is_Some (d !! "eco_lunch") /\
  is_Some (d !! "eco_dinner").

(** * Binary rounding of fractions

    The float operations of the calculator all end in
    [binary_round_aux]: a non-negative quantity, known through its integer
    part and the position of its fractional part, is shifted to the
    exponent of its 53-bit mantissa and rounded to nearest even.  This part
    relates that bit-level code to rounding of a fraction [A / B]. *)

Module Round.

(** The integer nearest to [A / B], ties to even. *)
Definition rne (A B : Z) : Z :=
  match 2 * (A mod B) ?= B with
  | Lt => A / B
  | Eq => if Z.even (A / B) then A / B else A / B + 1
  | Gt => A / B + 1
  end.

(** Integer part, round bit and sticky bit of [A / B]. *)
Definition frac_record (A B : Z) : shr_record :=
  {| shr_m := A / B;
     shr_r := B <=? 2 * (A mod B);
     shr_s := negb (A mod B =? 0) && negb (2 * (A mod B) =? B) |}.

(** The float built from a rounded mantissa [m], [2^52 <= m <= 2^53], and
    its exponent. *)
Definition finite_or_inf (m e : Z) : spec_float :=
  if e <=? Py.emax - Py.prec
  then S754_finite false (Z.to_pos m) e
  else S754_infinity false.

Definition pack (m e : Z) : spec_float :=
  if m =? 2 ^ 53 then finite_or_inf (2 ^ 52) (e + 1) else finite_or_inf m e.

(** [(A / B) * 2^E = N / D], with the powers of two cleared. *)
Definition scaled_eq (A B E N D : Z) : Prop :=
  exists a b, 0 <= a /\ 0 <= b /\ E = b - a /\
              A * D * 2 ^ b = N * 2 ^ a * B.

(** [m] is the 53-bit mantissa of [N / D] rounded at exponent [e]. *)
Definition rounds_to (N D m e : Z) : Prop :=
  exists A B, 0 < B /\ scaled_eq A B e N D /\
              2 ^ 52 * B <= A < 2 ^ 53 * B /\ m = rne A B.

(** The value of a finite float counted in units of [2^-1074], the
    smallest positive binary64 number. *)
Definition units (m e : Z) : Z := m * 2 ^ (e + 1074).

(** [U] is the value, in units, of [N / D] rounded to 53 bits. *)
Definition rounded (N D U : Z) : Prop :=
  exists m e, rounds_to N D m e /\ -1074 <= e /\ U = units m e.

(** [x] is the positive normal binary64 number worth [U] units. *)
Definition is_float (x : spec_float) (U : Z) : Prop :=
  exists p e, x = S754_finite false p e /\
              2 ^ 52 <= Zpos p < 2 ^ 53 /\ -1074 <= e <= 971 /\
              U = units (Zpos p) e.

(** The first value, in units, beyond the binary64 range: [2^1024]. *)
Definition overflow_threshold : Z := 2 ^ 2098.

End Round.

(** * The view around the calculator

    [perform_create] and [update_user_profile] of [EcoMealsView], with the
    collaborators they call: the [Profile] and [EcoMeals] tables behind
    Django's object manager, the serializer of the request, and the standard
    output.  The tables map a primary key to a row; a Python exception is an
    outcome that carries the state reached when it was raised (nothing is
    rolled back). *)

Module View.

(** A row of [Profile], with the columns the view reads and writes (the
    model class is in [.models], outside the sources). *)
Record Profile : Type := mkProfile {
  username : string;
  total_co2e_reduced : Z;
  total_points : Z
}.

(** A row of [EcoMeals]: the columns the view names. *)
Record EcoMeals : Type := mkEcoMeals {
  user : string;
  eco_breakfast : bool;
  eco_lunch : bool;
  eco_dinner : bool;
  co2_reduced : Z;
  ecomeals_points : Z
}.

(** The exceptions of the view: those of the calculator and of dictionary
    subscripts, those of [Profile.objects.get], a name that is not bound, and
    any other subclass of [Exception] (whatever [serializer.save] raises). *)
Inductive exception : Type :=
  | Builtin (e : exn)
  | DoesNotExist
  | MultipleObjectsReturned
  | NameError (name : string)
  | Exception (message : string).

Inductive outcome (A : Type) : Type :=
  | Done (a : A)
  | Failed (e : exception).

Arguments Done {A} a.
Arguments Failed {A} e.

Record world : Type := mkWorld {
  profiles : gmap nat Profile;
  meals : gmap nat EcoMeals;
  stdout : list string
}.

(** A statement of a method: it runs in a state and ends with a value or
    an exception, in a new state. *)
Definition action (A : Type) : Type := world -> outcome A * world.

Definition ret {A : Type} (a : A) : action A := fun w => (Done a, w).

Definition raise {A : Type} (e : exception) : action A :=
  fun w => (Failed e, w).

Definition and_then {A B : Type} (m : action A) (k : A -> action B)
  : action B :=
  fun w =>
    match m w with
    | (Done a, w') => k a w'
    | (Failed e, w') => (Failed e, w')
    end.

Notation "'run' x <- m ; k" := (and_then m (fun x => k))
  (at level 10, x name, m at level 100, k at level 200,
   format "'[v' 'run'  x  <-  m ; '/' k ']'").

(** A computation of the calculator, run as a statement. *)
Definition lift {A : Type} (r : result A) : action A :=
  match r with
  | Ok a => ret a
  | Raise e => raise (Builtin e)
  end.

(** [validated_data] of the serializer: a dictionary whose entry ["user"] is
    a string and whose other entries read by the view are booleans. *)
Record ValidatedData : Type := mkValidatedData {
  data_user : option string;
  data_flags : gmap string bool
}.

(** [serializer.validated_data["user"]]. *)
Definition validated_user (data : ValidatedData) : action string :=
  match data_user data with
  | Some u => ret u
  | None => raise (Builtin (KeyError "user"))
  end.

(** [serializer.validated_data[key]] for a flag. *)
Definition validated_flag (data : ValidatedData) (key : string)
  : action bool :=
  lift (Py.getitem (data_flags data) key).

(** [serializer.save(eco_breakfast=.., eco_lunch=.., eco_dinner=..)]: the
    serializer class is outside the sources, so its [save] is a parameter of
    the view.  From the validated data, the three keyword arguments and the
    [EcoMeals] table it yields the primary key and the fields of the row it
    stored (then [serializer.instance]) or an exception, and the table it
    leaves. *)
Definition save_method : Type :=
  ValidatedData -> bool -> bool -> bool -> gmap nat EcoMeals ->
  outcome (nat * EcoMeals) * gmap nat EcoMeals.

Definition serializer_save (save : save_method) (data : ValidatedData)
  (b l dn : bool) : action (nat * EcoMeals) :=
  fun w =>
    let '(r, table) := save data b l dn (meals w) in
    (r, mkWorld (profiles w) table (stdout w)).

(** [Profile.objects.get(username=user)]: the only row with that username,
    [DoesNotExist] when there is none, [MultipleObjectsReturned] when there
    are several. *)
Definition Profile_objects_get (name : string) : action (nat * Profile) :=
  fun w =>
    match map_to_list
            (filter (fun kp => username (snd kp) = name) (profiles w)) with
    | [] => (Failed DoesNotExist, w)
    | [kp] => (Done kp, w)
    | _ => (Failed MultipleObjectsReturned, w)
    end.

(** [profile.save()] on a row read from the table: the row of that primary
    key is rewritten. *)
Definition Profile_save (pk : nat) (profile : Profile) : action unit :=
  fun w =>
    (Done tt, mkWorld (<[pk := profile]> (profiles w)) (meals w) (stdout w)).

(** [eco_meals_instance.save()]. *)
Definition EcoMeals_save (pk : nat) (instance : EcoMeals) : action unit :=
  fun w =>
    (Done tt, mkWorld (profiles w) (<[pk := instance]> (meals w)) (stdout w)).

(** [print(line)]. *)
Definition print (line : string) : action unit :=
  fun w => (Done tt, mkWorld (profiles w) (meals w) (stdout w ++ [line])).

(** The two attribute assignments on [eco_meals_instance]. *)
Definition with_impact (instance : EcoMeals) (co2 points : Z) : EcoMeals :=
  mkEcoMeals (user instance) (eco_breakfast instance) (eco_lunch instance)
             (eco_dinner instance) co2 points.

(** The two [+=] on [profile]. *)
Definition credited (profile : Profile) (co2 points : Z) : Profile :=
  mkProfile (username profile)
            (total_co2e_reduced profile + co2)
            (total_points profile + points).

(** [EcoMealsView.update_user_profile] of [ecomeals_coding_sample.py]. *)
Definition update_user_profile (user : string)
  (user_co2_reduced user_ecomeals_points : Z) : action unit :=
  run found <- Profile_objects_get user;
  let profile := credited (snd found) user_co2_reduced user_ecomeals_points in
  Profile_save (fst found) profile.

(** The text of the [except] branch: the braces are printed as they are,
    the literal is not an f-string. *)
Definition error_message : string := "An error has occurred: {e}".

(** The body of the [try] of [perform_create], the same in both files;
    [update] is the method [self.update_user_profile] of the file. *)
Definition perform_create_try (update : string -> Z -> Z -> action unit)
  (save : save_method) (request_data : gmap string bool)
  (data : ValidatedData) : action unit :=
  run user <- validated_user data;
  run eco_breakfast <- validated_flag data "eco_breakfast";
  run eco_lunch <- validated_flag data "eco_lunch";
  run eco_dinner <- validated_flag data "eco_dinner";
  run created <- serializer_save save data eco_breakfast eco_lunch eco_dinner;
  let user_ecomeals_input := request_data in
  run co2_reduced <- lift (calculate_co2_reduced user_ecomeals_input);
  run ecomeals_points <- lift (calculate_ecomeals_points co2_reduced);
  let eco_meals_instance :=
    with_impact (snd created) co2_reduced ecomeals_points in
  run _ <- EcoMeals_save (fst created) eco_meals_instance;
  update user co2_reduced ecomeals_points.

(** [try: ... except Exception as e: print(...)]: every exception of the
    body is caught, and the method returns [None]. *)
Definition try_except (body : action unit) : world -> world :=
  fun w =>
    match body w with
    | (Done _, w') => w'
    | (Failed _, w') => snd (print error_message w')
    end.

(** [EcoMealsView.perform_create] of [ecomeals_coding_sample.py]. *)
Definition perform_create (save : save_method)
  (request_data : gmap string bool) (data : ValidatedData)
  : world -> world :=
  try_except (perform_create_try update_user_profile save request_data data).

(** [EcoMealsView.get_queryset]: [EcoMeals.objects.all()]. *)
Definition get_queryset (w : world) : list EcoMeals :=
  snd <$> map_to_list (meals w).

(** [airbnb_ecomeals_coding_sample.py] imports [EcoMeals] and the serializer
    but not [Profile]: the first statement of its [update_user_profile]
    fails on that name. *)
Module Airbnb.

Definition update_user_profile (user : string)
  (user_co2_reduced user_ecomeals_points : Z) : action unit :=
  raise (NameError "Profile").

Definition perform_create (save : save_method)
  (request_data : gmap string bool) (data : ValidatedData)
  : world -> world :=
  try_except (perform_create_try update_user_profile save request_data data).

End Airbnb.

(** A sample [save], used to run the view on examples: it needs the ["user"]
    entry and stores a row built from the validated data and the keyword
    arguments under a fresh key, with no impact yet. *)
Definition sample_save : save_method :=
  fun data b l dn table =>
    match data_user data with
    | Some u =>
        let pk := fresh (dom table) in
        let row := mkEcoMeals u b l dn 0 0 in
        (Done (pk, row), <[pk := row]> table)
    | None => (Failed (Exception "user: this field is required"), table)
    end.

(** A sample state: two profiles, no meal stored, nothing printed. *)
Definition sample_world : world :=
  mkWorld (<[7%nat := mkProfile "ana" 10 5]>
             (<[3%nat := mkProfile "bo" 0 0]> ∅)) ∅ [].

(** Every profile holds twice as many grams as points. *)
Definition balanced (table : gmap nat Profile) : Prop :=
  map_Forall (fun _ p => total_co2e_reduced p = 2 * total_points p) table.

End View.

(** ** Number of binary digits *)

Lemma digits2_pos_log2 (p : positive) :
  Zpos (digits2_pos p) = Z.log2 (Zpos p) + 1.
Proof.
  induction p as [p IH | p IH |]; simpl; try reflexivity.
  - rewrite Pos2Z.inj_succ, IH. destruct p; simpl; lia.
  - rewrite Pos2Z.inj_succ, IH. destruct p; simpl; lia.
Qed.

Lemma Zdigits2_bounds (m : Z) :
  0 < m -> 2 ^ (Zdigits2 m - 1) <= m < 2 ^ Zdigits2 m.
Proof.
  intros Hm. destruct m as [| p | p]; try lia.
  unfold Zdigits2. rewrite digits2_pos_log2.
  replace (Z.log2 (Z.pos p) + 1 - 1) with (Z.log2 (Z.pos p)) by lia.
  replace (Z.log2 (Z.pos p) + 1) with (Z.succ (Z.log2 (Z.pos p))) by lia.
  apply Z.log2_spec. lia.
Qed.

Lemma Zdigits2_pos (m : Z) : 0 < m -> 0 < Zdigits2 m.
Proof.
  intros Hm. destruct m as [| p | p]; try lia. simpl. lia.
Qed.

Lemma pow2_lt_inv (a b : Z) : 0 <= b -> 2 ^ a < 2 ^ b -> a < b.
Proof.
  intros Hb H. destruct (Z_lt_le_dec a b) as [|Hle]; [assumption|].
  assert (2 ^ b <= 2 ^ a) by (apply Z.pow_le_mono_r; lia). lia.
Qed.

Lemma Zdigits2_ge (m d : Z) : 0 <= d -> 2 ^ d <= m -> d + 1 <= Zdigits2 m.
Proof.
  intros Hd H.
  assert (0 < 2 ^ d) by (apply Z.pow_pos_nonneg; lia).
  assert (Hm : 0 < m) by lia.
  pose proof (Zdigits2_bounds m Hm) as [_ Hu].
  pose proof (Zdigits2_pos m Hm).
  assert (d < Zdigits2 m) by (apply pow2_lt_inv; lia). lia.
Qed.

Lemma Zdigits2_le (m d : Z) : 0 < m -> m < 2 ^ d -> Zdigits2 m <= d.
Proof.
  intros Hm H.
  pose proof (Zdigits2_bounds m Hm) as [Hl _].
  pose proof (Zdigits2_pos m Hm).
  destruct (Z_lt_le_dec d 0) as [Hd|Hd].
  - rewrite Z.pow_neg_r in H; lia.
  - assert (Zdigits2 m - 1 < d) by (apply pow2_lt_inv; lia). lia.
Qed.

(** ** Rounding a fraction to the nearest integer *)

Lemma rne_bounds (A B : Z) : A / B <= Round.rne A B <= A / B + 1.
Proof.
  unfold Round.rne.
  destruct (2 * (A mod B) ?= B); [destruct (Z.even (A / B))| |]; lia.
Qed.

Lemma rne_exact (q B : Z) : 0 < B -> Round.rne (q * B) B = q.
Proof.
  intros HB. unfold Round.rne.
  rewrite Z.mod_mul, Z.div_mul by lia.
  destruct (Z.compare_spec (2 * 0) B); lia.
Qed.

Lemma div_le_cross (A1 B1 A2 B2 : Z) :
  0 < B1 -> 0 < B2 -> A1 * B2 <= A2 * B1 -> A1 / B1 <= A2 / B2.
Proof.
  intros H1 H2 H.
  apply Z.div_le_lower_bound; [lia|].
  pose proof (Z.mul_div_le A1 B1 H1) as Hq.
  assert (Hc : B1 * (B2 * (A1 / B1)) <= B1 * A2) by nia.
  apply Z.mul_le_mono_pos_l in Hc; lia.
Qed.

Lemma rne_mono (A1 B1 A2 B2 : Z) :
  0 < B1 -> 0 < B2 -> A1 * B2 <= A2 * B1 ->
  Round.rne A1 B1 <= Round.rne A2 B2.
Proof.
  intros H1 H2 H.
  pose proof (div_le_cross _ _ _ _ H1 H2 H) as Hq.
  pose proof (rne_bounds A1 B1) as Hb1.
  pose proof (rne_bounds A2 B2) as Hb2.
  destruct (Z.eq_dec (A1 / B1) (A2 / B2)) as [Heq|Hne]; [|lia].
  pose proof (Z.div_mod A1 B1 ltac:(lia)) as E1.
  pose proof (Z.div_mod A2 B2 ltac:(lia)) as E2.
  pose proof (Z.mod_pos_bound A1 B1 H1) as R1.
  pose proof (Z.mod_pos_bound A2 B2 H2) as R2.
  set (q := A2 / B2) in *. set (r1 := A1 mod B1) in *.
  set (r2 := A2 mod B2) in *.
  assert (Hr : r1 * B2 <= r2 * B1) by nia.
  unfold Round.rne. fold r1 r2. rewrite Heq. fold q.
  destruct (Z.compare_spec (2 * r1) B1) as [Ha|Ha|Ha];
    destruct (Z.compare_spec (2 * r2) B2) as [Hc|Hc|Hc];
    destruct (Z.even q); try lia; exfalso; nia.
Qed.

Lemma rne_ratio (A1 B1 A2 B2 : Z) :
  0 < B1 -> 0 < B2 -> A1 * B2 = A2 * B1 ->
  Round.rne A1 B1 = Round.rne A2 B2.
Proof.
  intros H1 H2 H. apply Z.le_antisymm; apply rne_mono; lia.
Qed.

Lemma rne_lower (L A B : Z) : 0 < B -> L * B <= A -> L <= Round.rne A B.
Proof.
  intros HB H. rewrite <- (rne_exact L B HB) at 1.
  apply rne_mono; try lia. apply Z.mul_le_mono_nonneg_r; lia.
Qed.

Lemma rne_upper (U A B : Z) : 0 < B -> A <= U * B -> Round.rne A B <= U.
Proof.
  intros HB H. rewrite <- (rne_exact U B HB) at 1.
  apply rne_mono; try lia. apply Z.mul_le_mono_nonneg_r; lia.
Qed.

(** ** One-bit right shifts of a fraction *)

Lemma shr_1_nonneg (m : Z) (r s : bool) :
  0 <= m ->
  shr_1 {| shr_m := m; shr_r := r; shr_s := s |} =
  {| shr_m := m / 2; shr_r := Z.odd m; shr_s := r || s |}.
Proof.
  intros Hm. destruct m as [| p | p]; [reflexivity | | lia].
  destruct p as [p | p |]; simpl shr_1; f_equal.
  - rewrite Pos2Z.inj_xI. apply Z.div_unique with (r := 1); lia.
  - rewrite Pos2Z.inj_xO. apply Z.div_unique with (r := 0); lia.
Qed.

Lemma shr_1_frac (A B : Z) :
  0 <= A -> 0 < B ->
  shr_1 (Round.frac_record A B) = Round.frac_record A (2 * B).
Proof.
  intros HA HB. unfold Round.frac_record.
  rewrite shr_1_nonneg by (apply Z.div_pos; lia).
  assert (Hdiv : A / (2 * B) = A / B / 2)
    by (rewrite (Z.mul_comm 2 B), Z.div_div; lia).
  assert (Hmod : A mod (2 * B) = A mod B + B * ((A / B) mod 2))
    by (rewrite (Z.mul_comm 2 B); apply Z.rem_mul_r; lia).
  pose proof (Z.mod_pos_bound A B HB) as R.
  rewrite Hdiv, Hmod.
  rewrite (Zmod_odd (A / B)).
  destruct (Z.odd (A / B)); f_equal;
    repeat match goal with
           | |- context [?x <=? ?y] => destruct (Z.leb_spec x y)
           | |- context [?x =? ?y] => destruct (Z.eqb_spec x y)
           end; simpl; try reflexivity; lia.
Qed.

Lemma iter_shr_1_frac (p : positive) (A B : Z) :
  0 <= A -> 0 < B ->
  SpecFloat.iter_pos shr_1 p (Round.frac_record A B) =
  Round.frac_record A (B * 2 ^ Zpos p).
Proof.
  intros HA. revert B.
  induction p as [p IH | p IH |]; intros B HB; cbn [SpecFloat.iter_pos].
  - rewrite shr_1_frac, IH, IH by
      (try assumption; repeat apply Z.mul_pos_pos; try lia;
       apply Z.pow_pos_nonneg; lia).
    f_equal. rewrite (Pos2Z.inj_xI p).
    rewrite Z.pow_add_r, Z.pow_mul_r, Z.pow_2_r by lia.
    replace (2 ^ 2) with (2 * 2) by reflexivity.
    rewrite Z.pow_mul_l. change (2 ^ 1) with 2. ring.
  - rewrite IH, IH by
      (try assumption; repeat apply Z.mul_pos_pos; try lia;
       apply Z.pow_pos_nonneg; lia).
    f_equal. rewrite (Pos2Z.inj_xO p).
    rewrite Z.pow_mul_r by lia.
    replace (2 ^ 2) with (2 * 2) by reflexivity.
    rewrite Z.pow_mul_l. ring.
  - rewrite shr_1_frac by assumption. f_equal. change (2 ^ 1) with 2. ring.
Qed.

Lemma shr_frac (A B e k : Z) :
  0 <= A -> 0 < B -> 0 <= k ->
  shr (Round.frac_record A B) e k = (Round.frac_record A (B * 2 ^ k), e + k).
Proof.
  intros HA HB Hk. destruct k as [| p | p]; [| | lia]; simpl shr.
  - rewrite Z.mul_1_r, Z.add_0_r. reflexivity.
  - rewrite iter_shr_1_frac by assumption. reflexivity.
Qed.

Lemma round_nearest_even_frac (A B : Z) :
  0 < B ->
  round_nearest_even (shr_m (Round.frac_record A B))
                     (loc_of_shr_record (Round.frac_record A B)) =
  Round.rne A B.
Proof.
  intros HB. unfold Round.frac_record, Round.rne. simpl.
  pose proof (Z.mod_pos_bound A B HB) as R.
  destruct (Z.compare_spec (2 * (A mod B)) B) as [H|H|H];
    repeat match goal with
           | |- context [?x <=? ?y] => destruct (Z.leb_spec x y)
           | |- context [?x =? ?y] => destruct (Z.eqb_spec x y)
           end; simpl; try reflexivity; try lia.
Qed.

(** ** [binary_round_aux] rounds a fraction *)

Lemma shr_m_of_loc (M : Z) (loc : location) :
  shr_m (shr_record_of_loc M loc) = M.
Proof. destruct loc as [|[]]; reflexivity. Qed.

Lemma div_bounds_cross (A B L U : Z) :
  0 < B -> L <= A / B < U -> L * B <= A < U * B.
Proof.
  intros HB [Hl Hu].
  pose proof (Z.div_mod A B ltac:(lia)) as E.
  pose proof (Z.mod_pos_bound A B HB) as R.
  split; nia.
Qed.

Lemma shr_fexp_frac (A B M E : Z) (loc : location) :
  0 <= A -> 0 < B ->
  shr_record_of_loc M loc = Round.frac_record A B ->
  0 <= Zdigits2 M - 53 -> -1074 <= E + (Zdigits2 M - 53) ->
  shr_fexp Py.prec Py.emax M E loc =
  (Round.frac_record A (B * 2 ^ (Zdigits2 M - 53)), E + (Zdigits2 M - 53)).
Proof.
  intros HA HB Hrec Hk Hmin. unfold shr_fexp. rewrite Hrec.
  replace (fexp Py.prec Py.emax (Zdigits2 M + E) - E) with (Zdigits2 M - 53)
    by (unfold fexp, emin, Py.prec, Py.emax; lia).
  apply shr_frac; assumption.
Qed.

Lemma exact_record (m : Z) :
  shr_record_of_loc m loc_Exact = Round.frac_record m 1.
Proof.
  unfold Round.frac_record. rewrite Z.div_1_r, Z.mod_1_r. reflexivity.
Qed.

Lemma binary_round_aux_frac (A B M E : Z) (loc : location) :
  0 <= A -> 0 < B ->
  shr_record_of_loc M loc = Round.frac_record A B ->
  2 ^ 52 <= M -> -1074 <= E + (Zdigits2 M - 53) ->
  binary_round_aux Py.prec Py.emax false M E loc =
    Round.pack (Round.rne A (B * 2 ^ (Zdigits2 M - 53)))
               (E + (Zdigits2 M - 53)) /\
  2 ^ 52 * (B * 2 ^ (Zdigits2 M - 53)) <= A
    < 2 ^ 53 * (B * 2 ^ (Zdigits2 M - 53)).
Proof.
  intros HA HB Hrec HM Hmin.
  assert (HMeq : M = A / B).
  { rewrite <- (shr_m_of_loc M loc), Hrec. reflexivity. }
  pose proof (Zdigits2_ge M 52 ltac:(lia) HM) as Hd.
  set (k := Zdigits2 M - 53) in *.
  assert (Hk : 0 <= k) by (unfold k; lia).
  assert (Hpk : 0 < 2 ^ k) by (apply Z.pow_pos_nonneg; lia).
  assert (HBk : 0 < B * 2 ^ k) by (apply Z.mul_pos_pos; lia).
  assert (Hbounds : 2 ^ 52 * (B * 2 ^ k) <= A < 2 ^ 53 * (B * 2 ^ k)).
  { pose proof (Zdigits2_bounds M ltac:(lia)) as [Hl Hu].
    replace (Zdigits2 M - 1) with (52 + k) in Hl by (unfold k; lia).
    replace (Zdigits2 M) with (53 + k) in Hu by (unfold k; lia).
    rewrite Z.pow_add_r in Hl, Hu by lia.
    rewrite HMeq in Hl, Hu.
    pose proof (div_bounds_cross A B _ _ HB (conj Hl Hu)). lia. }
  split; [|exact Hbounds].
  set (m1 := Round.rne A (B * 2 ^ k)).
  assert (Hm1 : 2 ^ 52 <= m1 <= 2 ^ 53).
  { split; [apply rne_lower | apply rne_upper]; lia. }
  unfold binary_round_aux.
  rewrite (shr_fexp_frac A B M E loc HA HB Hrec Hk Hmin). fold k.
  rewrite round_nearest_even_frac by assumption. fold m1.
  unfold Round.pack.
  destruct (Z.eqb_spec m1 (2 ^ 53)) as [Heq|Hne].
  - rewrite Heq.
    replace (shr_fexp Py.prec Py.emax (2 ^ 53) (E + k) loc_Exact)
      with ({| shr_m := 2 ^ 52; shr_r := false; shr_s := false |}, E + k + 1).
    + reflexivity.
    + unfold shr_fexp.
      replace (fexp Py.prec Py.emax (Zdigits2 (2 ^ 53) + (E + k)) - (E + k))
        with 1
        by (change (Zdigits2 (2 ^ 53)) with 54;
            unfold fexp, emin, Py.prec, Py.emax; lia).
      reflexivity.
  - assert (Hd1 : Zdigits2 m1 = 53).
    { apply Z.le_antisymm.
      - apply Zdigits2_le; lia.
      - apply (Zdigits2_ge m1 52); lia. }
    unfold shr_fexp. rewrite Hd1.
    replace (fexp Py.prec Py.emax (53 + (E + k)) - (E + k)) with 0
      by (unfold fexp, emin, Py.prec, Py.emax; lia).
    unfold shr. rewrite shr_m_of_loc.
    destruct m1 as [| p | p]; try (exfalso; lia).
    unfold Round.finite_or_inf. reflexivity.
Qed.

(** ** Rounding is monotone and exact on representable values *)

Lemma pow2_pos (a : Z) : 0 <= a -> 0 < 2 ^ a.
Proof. intros. apply Z.pow_pos_nonneg; lia. Qed.

Lemma rounds_to_mantissa (N D m e : Z) :
  Round.rounds_to N D m e -> 2 ^ 52 <= m <= 2 ^ 53.
Proof.
  intros (A & B & HB & _ & Hb & ->).
  split; [apply rne_lower | apply rne_upper]; lia.
Qed.

Lemma rounds_to_mono (N1 D1 m1 e1 N2 D2 m2 e2 : Z) :
  0 < D1 -> 0 < D2 ->
  Round.rounds_to N1 D1 m1 e1 -> Round.rounds_to N2 D2 m2 e2 ->
  N1 * D2 <= N2 * D1 ->
  e1 < e2 \/ (e1 = e2 /\ m1 <= m2).
Proof.
  intros HD1 HD2
    (A1 & B1 & HB1 & (a1 & b1 & Ha1 & Hb1 & He1 & Hs1) & Hr1 & ->)
    (A2 & B2 & HB2 & (a2 & b2 & Ha2 & Hb2 & He2 & Hs2) & Hr2 & ->) Hle.
  pose proof (pow2_pos a1 Ha1) as Px1. pose proof (pow2_pos b1 Hb1) as Py1.
  pose proof (pow2_pos a2 Ha2) as Px2. pose proof (pow2_pos b2 Hb2) as Py2.
  (* the order of the two fractions, at the exponents of their mantissas *)
  assert (Hkey : A1 * B2 * (2 ^ b1 * 2 ^ a2) <= A2 * B1 * (2 ^ b2 * 2 ^ a1)).
  { assert (Hpos : 0 <= 2 ^ a1 * B1 * (2 ^ a2 * B2)).
    { apply Z.mul_nonneg_nonneg; apply Z.mul_nonneg_nonneg; lia. }
    pose proof (Z.mul_le_mono_nonneg_r _ _ _ Hpos Hle) as H.
    replace (N1 * D2 * (2 ^ a1 * B1 * (2 ^ a2 * B2)))
      with (N1 * 2 ^ a1 * B1 * (D2 * 2 ^ a2 * B2)) in H by ring.
    replace (N2 * D1 * (2 ^ a1 * B1 * (2 ^ a2 * B2)))
      with (N2 * 2 ^ a2 * B2 * (D1 * 2 ^ a1 * B1)) in H by ring.
    rewrite <- Hs1, <- Hs2 in H.
    apply (Z.mul_le_mono_pos_l _ _ (D1 * D2)); [apply Z.mul_pos_pos; lia|].
    etransitivity; [|etransitivity; [exact H|]];
      apply Z.eq_le_incl; ring. }
  destruct (Z.lt_trichotomy e1 e2) as [Hlt | [Heq | Hgt]].
  - left; exact Hlt.
  - right; split; [exact Heq|].
    assert (Hexp : b1 + a2 = b2 + a1) by lia.
    assert (Hp : 2 ^ b1 * 2 ^ a2 = 2 ^ b2 * 2 ^ a1).
    { rewrite <- !Z.pow_add_r by lia. rewrite Hexp. reflexivity. }
    rewrite Hp in Hkey.
    apply rne_mono; try assumption.
    apply (Z.mul_le_mono_pos_r _ _ (2 ^ b2 * 2 ^ a1));
      [apply Z.mul_pos_pos; lia | exact Hkey].
  - exfalso.
    assert (Hp : 2 * (2 ^ b2 * 2 ^ a1) <= 2 ^ b1 * 2 ^ a2).
    { rewrite <- !Z.pow_add_r by lia.
      replace (2 * 2 ^ (b2 + a1)) with (2 ^ (b2 + a1 + 1))
        by (rewrite Z.pow_add_r by lia; change (2 ^ 1) with 2; ring).
      apply Z.pow_le_mono_r; lia. }
    set (T := 2 ^ b2 * 2 ^ a1) in *.
    assert (HT : 0 < T) by (apply Z.mul_pos_pos; lia).
    assert (H1 : 2 ^ 52 * B1 * B2 * (2 * T) <= A1 * B2 * (2 ^ b1 * 2 ^ a2)).
    { assert (0 <= 2 ^ 52 * B1) by lia.
      assert (0 <= 2 ^ 52 * B1 * B2) by (apply Z.mul_nonneg_nonneg; lia).
      apply Z.mul_le_mono_nonneg; try lia.
      apply Z.mul_le_mono_nonneg_r; lia. }
    assert (H2 : A2 * B1 * T < 2 ^ 53 * B2 * B1 * T).
    { apply Z.mul_lt_mono_pos_r; [lia|].
      apply Z.mul_lt_mono_pos_r; lia. }
    replace (2 ^ 52 * B1 * B2 * (2 * T)) with (2 ^ 53 * B2 * B1 * T) in H1
      by (change (2 ^ 53) with (2 ^ 52 * 2); ring).
    lia.
Qed.

Lemma rounds_to_exp_upper (N D m e u : Z) :
  0 < D -> 0 <= u -> Round.rounds_to N D m e -> N < 2 ^ u * D ->
  e <= u - 53.
Proof.
  intros HD Hu (A & B & HB & (a & b & Ha & Hb & He & Hs) & Hr & _) HN.
  pose proof (pow2_pos a Ha) as Pa. pose proof (pow2_pos b Hb) as Pb.
  assert (H1 : 2 ^ 52 * 2 ^ b * (B * D) <= A * D * 2 ^ b).
  { replace (2 ^ 52 * 2 ^ b * (B * D)) with (2 ^ 52 * B * (D * 2 ^ b))
      by ring.
    replace (A * D * 2 ^ b) with (A * (D * 2 ^ b)) by ring.
    apply Z.mul_le_mono_nonneg_r; [|lia].
    apply Z.mul_nonneg_nonneg; lia. }
  assert (H2 : N * 2 ^ a * B < 2 ^ u * 2 ^ a * (B * D)).
  { replace (N * 2 ^ a * B) with (N * (2 ^ a * B)) by ring.
    replace (2 ^ u * 2 ^ a * (B * D)) with (2 ^ u * D * (2 ^ a * B)) by ring.
    apply Z.mul_lt_mono_pos_r; [apply Z.mul_pos_pos; lia | lia]. }
  rewrite <- Hs in H2.
  assert (H3 : 2 ^ 52 * 2 ^ b * (B * D) < 2 ^ u * 2 ^ a * (B * D)) by lia.
  apply Z.mul_lt_mono_pos_r in H3; [|apply Z.mul_pos_pos; lia].
  rewrite <- !Z.pow_add_r in H3 by lia.
  apply pow2_lt_inv in H3; lia.
Qed.


(** ** Values in units *)

Lemma units_lex (m1 e1 m2 e2 : Z) :
  2 ^ 52 <= m1 <= 2 ^ 53 -> 2 ^ 52 <= m2 <= 2 ^ 53 -> -1074 <= e1 ->
  e1 < e2 \/ (e1 = e2 /\ m1 <= m2) ->
  Round.units m1 e1 <= Round.units m2 e2.
Proof.
  intros H1 H2 He [Hlt | [-> Hm]]; unfold Round.units.
  - pose proof (pow2_pos (e1 + 1074) ltac:(lia)) as P1.
    assert (Hp : 2 * 2 ^ (e1 + 1074) <= 2 ^ (e2 + 1074)).
    { replace (2 * 2 ^ (e1 + 1074)) with (2 ^ (e1 + 1074 + 1))
        by (rewrite Z.pow_add_r by lia; change (2 ^ 1) with 2; ring).
      apply Z.pow_le_mono_r; lia. }
    transitivity (2 ^ 53 * 2 ^ (e1 + 1074)).
    + apply Z.mul_le_mono_nonneg_r; lia.
    + transitivity (2 ^ 52 * 2 ^ (e2 + 1074)).
      * change (2 ^ 53) with (2 ^ 52 * 2). lia.
      * apply Z.mul_le_mono_nonneg_r; lia.
  - apply Z.mul_le_mono_nonneg_r; [|lia].
    apply Z.lt_le_incl, pow2_pos. lia.
Qed.

Lemma rounded_mono (N1 D1 U1 N2 D2 U2 : Z) :
  0 < D1 -> 0 < D2 ->
  Round.rounded N1 D1 U1 -> Round.rounded N2 D2 U2 ->
  N1 * D2 <= N2 * D1 -> U1 <= U2.
Proof.
  intros HD1 HD2 (m1 & e1 & Hr1 & He1 & ->) (m2 & e2 & Hr2 & He2 & ->) Hle.
  apply units_lex; try assumption.
  - eapply rounds_to_mantissa; eassumption.
  - eapply rounds_to_mantissa; eassumption.
  - eapply rounds_to_mono; [| | exact Hr1 | exact Hr2 | exact Hle]; assumption.
Qed.


Lemma rounded_upper (N D U u : Z) :
  0 < D -> 0 <= u -> Round.rounded N D U -> N < 2 ^ u * D ->
  U <= 2 ^ (u + 1074).
Proof.
  intros HD Hu (m & e & Hr & He & ->) HN.
  pose proof (rounds_to_exp_upper N D m e u HD Hu Hr HN) as Hup.
  pose proof (rounds_to_mantissa N D m e Hr) as Hm.
  unfold Round.units.
  transitivity (2 ^ 53 * 2 ^ (e + 1074)).
  - apply Z.mul_le_mono_nonneg_r; [|lia].
    apply Z.lt_le_incl, pow2_pos. lia.
  - rewrite <- Z.pow_add_r by lia. apply Z.pow_le_mono_r; lia.
Qed.

Lemma rounded_pos (N D U : Z) : Round.rounded N D U -> 0 < U.
Proof.
  intros (m & e & Hr & He & ->).
  pose proof (rounds_to_mantissa N D m e Hr) as Hm.
  unfold Round.units. apply Z.mul_pos_pos; [lia|]. apply pow2_pos. lia.
Qed.

Lemma pack_spec (m e : Z) :
  2 ^ 52 <= m <= 2 ^ 53 -> -1074 <= e ->
  (Round.units m e < Round.overflow_threshold /\
   Round.is_float (Round.pack m e) (Round.units m e)) \/
  (Round.overflow_threshold <= Round.units m e /\
   Round.pack m e = S754_infinity false).
Proof.
  intros Hm He. unfold Round.pack, Round.finite_or_inf, Py.emax, Py.prec.
  unfold Round.overflow_threshold, Round.units.
  pose proof (pow2_pos (e + 1074) ltac:(lia)) as Pe.
  destruct (Z.eqb_spec m (2 ^ 53)) as [-> | Hne].
  - rewrite <- Z.pow_add_r by lia.
    destruct (Z.leb_spec (e + 1) (1024 - 53)) as [Hle | Hgt].
    + left. split; [apply Z.pow_lt_mono_r; lia|].
      exists (Z.to_pos (2 ^ 52)), (e + 1). split; [reflexivity|].
      rewrite Z2Pos.id by lia. repeat split; try lia.
      unfold Round.units. rewrite <- !Z.pow_add_r by lia. f_equal. lia.
    + right. split; [apply Z.pow_le_mono_r; lia | reflexivity].
  - destruct (Z.leb_spec e (1024 - 53)) as [Hle | Hgt].
    + left. split.
      * apply Z.lt_le_trans with (2 ^ 53 * 2 ^ (e + 1074)).
        -- apply Z.mul_lt_mono_pos_r; lia.
        -- rewrite <- Z.pow_add_r by lia. apply Z.pow_le_mono_r; lia.
      * exists (Z.to_pos m), e. split; [reflexivity|].
        rewrite Z2Pos.id by lia. repeat split; lia.
    + right. split; [|reflexivity].
      apply Z.le_trans with (2 ^ 52 * 2 ^ (e + 1074)).
      * rewrite <- Z.pow_add_r by lia. apply Z.pow_le_mono_r; lia.
      * apply Z.mul_le_mono_nonneg_r; lia.
Qed.

Lemma shiftl_units (m e : Z) :
  -1074 <= e -> Z.shiftl m e = Round.units m e / 2 ^ 1074.
Proof.
  intros He. unfold Round.units.
  destruct (Z_le_gt_dec 0 e) as [Hpos | Hneg].
  - rewrite Z.shiftl_mul_pow2, Z.pow_add_r, Z.mul_assoc by lia.
    rewrite Z.div_mul; [reflexivity|].
    apply Z.neq_sym, Z.lt_neq, pow2_pos. lia.
  - rewrite Z.shiftl_div_pow2 by lia.
    replace (2 ^ 1074) with (2 ^ (- e) * 2 ^ (e + 1074))
      by (rewrite <- Z.pow_add_r by lia; f_equal; lia).
    rewrite Z.div_mul_cancel_r; [reflexivity| |];
      apply Z.neq_sym, Z.lt_neq, pow2_pos; lia.
Qed.

Lemma floor_is_float (x : spec_float) (U : Z) :
  Round.is_float x U -> Py.floor x = Ok (U / 2 ^ 1074).
Proof.
  intros (p & e & -> & Hp & He & ->). simpl.
  rewrite shiftl_units by lia. reflexivity.
Qed.

(** ** The division by 100 *)

Lemma new_location_100 (A : Z) :
  shr_record_of_loc (A / 100) (new_location 100 (A mod 100)) =
  Round.frac_record A 100.
Proof.
  unfold new_location. change (Z.even 100) with true. cbv iota.
  unfold new_location_even, Round.frac_record.
  pose proof (Z.mod_pos_bound A 100 ltac:(lia)) as R.
  destruct (Z.eqb_spec (A mod 100) 0) as [H0 | H0].
  - rewrite H0. reflexivity.
  - destruct (Z.compare_spec (2 * (A mod 100)) 100) as [H|H|H]; simpl;
      repeat match goal with
             | |- context [?x <=? ?y] => destruct (Z.leb_spec x y)
             | |- context [?x =? ?y] => destruct (Z.eqb_spec x y)
             end; simpl; try reflexivity; lia.
Qed.

Lemma SFdiv_core_100 (n s : Z) :
  0 < n -> s = Z.max (60 - Zdigits2 n) 0 ->
  SFdiv_core_binary Py.prec Py.emax n 0 100 0 =
  (n * 2 ^ s / 100, - s, new_location 100 ((n * 2 ^ s) mod 100)).
Proof.
  intros Hn Hs. pose proof (Zdigits2_pos n Hn) as Hd.
  unfold SFdiv_core_binary. cbv zeta.
  change (Zdigits2 100) with 7.
  assert (He : Z.min (fexp Py.prec Py.emax (Zdigits2 n + 0 - (7 + 0))) (0 - 0)
               = - s)
    by (unfold fexp, emin, Py.prec, Py.emax; lia).
  rewrite He. replace (0 - 0 - - s) with s by lia.
  assert (Hm : match s with
               | 0 => n
               | Z.pos _ => Z.shiftl n s
               | Z.neg _ => 0
               end = n * 2 ^ s).
  { destruct s as [| q | q] eqn:E; [ring | | lia].
    apply Z.shiftl_mul_pow2. lia. }
  rewrite Hm.
  unfold Z.div, Z.modulo.
  destruct (Z.div_eucl (n * 2 ^ s) 100) as [q r]. reflexivity.
Qed.

Lemma scaled_ge_2_59 (n s : Z) :
  0 < n -> s = Z.max (60 - Zdigits2 n) 0 -> 2 ^ 59 <= n * 2 ^ s.
Proof.
  intros Hn Hs. pose proof (Zdigits2_bounds n Hn) as [Hl _].
  pose proof (Zdigits2_pos n Hn) as Hd.
  pose proof (pow2_pos s ltac:(lia)) as Ps.
  apply Z.le_trans with (2 ^ (Zdigits2 n - 1) * 2 ^ s).
  - rewrite <- Z.pow_add_r by lia. apply Z.pow_le_mono_r; lia.
  - apply Z.mul_le_mono_nonneg_r; lia.
Qed.

Lemma SFdiv_100_rounds (p : positive) :
  exists m e,
    SFdiv Py.prec Py.emax (Py.exact (Zpos p)) (Py.exact 100) =
      Round.pack m e /\
    Round.rounds_to (Zpos p) 100 m e /\ -1074 <= e.
Proof.
  set (n := Zpos p). assert (Hn : 0 < n) by (unfold n; lia).
  set (s := Z.max (60 - Zdigits2 n) 0).
  pose proof (Zdigits2_pos n Hn) as Hd.
  pose proof (scaled_ge_2_59 n s Hn eq_refl) as Hbig.
  set (A := n * 2 ^ s) in *.
  assert (HM : 2 ^ 52 <= A / 100).
  { apply Z.div_le_lower_bound; lia. }
  pose proof (Zdigits2_ge (A / 100) 52 ltac:(lia) HM) as HdM.
  destruct (binary_round_aux_frac A 100 (A / 100) (- s)
              (new_location 100 (A mod 100)))
    as [Hres Hb]; try lia.
  { apply new_location_100. }
  exists (Round.rne A (100 * 2 ^ (Zdigits2 (A / 100) - 53))),
         (- s + (Zdigits2 (A / 100) - 53)).
  split; [|split; [|lia]].
  - unfold Py.exact, n. unfold SFdiv.
    rewrite (SFdiv_core_100 (Zpos p) s Hn eq_refl). exact Hres.
  - set (k := Zdigits2 (A / 100) - 53) in *.
    exists A, (100 * 2 ^ k). split.
    { apply Z.mul_pos_pos; [lia | apply pow2_pos; lia]. }
    split; [|split; [exact Hb | reflexivity]].
    exists s, k. unfold A. repeat split; lia.
Qed.

Lemma truediv_100_spec (n : Z) :
  0 < n ->
  exists U, Round.rounded n 100 U /\
    ((U < Round.overflow_threshold /\
      exists x, Py.truediv n 100 = Ok x /\ Round.is_float x U) \/
     (Round.overflow_threshold <= U /\
      Py.truediv n 100 = Raise OverflowError)).
Proof.
  intros Hn. destruct n as [| p | p]; try lia.
  destruct (SFdiv_100_rounds p) as (m & e & Hdiv & Hr & He).
  exists (Round.units m e). split; [exists m, e; auto|].
  pose proof (rounds_to_mantissa _ _ _ _ Hr) as Hm.
  unfold Py.truediv. change (100 =? 0) with false. cbv iota. rewrite Hdiv.
  destruct (pack_spec m e Hm He) as [[Hlt Hf] | [Hge Hinf]].
  - left. split; [exact Hlt|]. exists (Round.pack m e). split; [|exact Hf].
    destruct Hf as (q & e' & -> & _). reflexivity.
  - right. split; [exact Hge|]. rewrite Hinf. reflexivity.
Qed.

(** ** The multiplication by 50 *)

Lemma float_of_int_50 :
  Py.float_of_int 50 = Ok (S754_finite false 7036874417766400 (-47)).
Proof. reflexivity. Qed.

Lemma SFmul_50_rounds (p : positive) (e : Z) :
  2 ^ 52 <= Zpos p < 2 ^ 53 -> -1074 <= e ->
  exists m' e',
    SFmul Py.prec Py.emax (S754_finite false p e)
          (S754_finite false 7036874417766400 (-47)) = Round.pack m' e' /\
    Round.rounds_to (50 * Round.units (Zpos p) e) (2 ^ 1074) m' e' /\
    -1074 <= e'.
Proof.
  intros Hp He.
  assert (Hc : Zpos 7036874417766400 = 50 * 2 ^ 47) by reflexivity.
  set (A := Zpos (p * 7036874417766400)).
  assert (HA : A = Zpos p * (50 * 2 ^ 47))
    by (unfold A; rewrite Pos2Z.inj_mul, Hc; reflexivity).
  assert (Hbig : 2 ^ 104 <= A).
  { rewrite HA. change (2 ^ 104) with (2 ^ 52 * 2 ^ 52).
    apply Z.mul_le_mono_nonneg; lia. }
  pose proof (Zdigits2_ge A 104 ltac:(lia) Hbig) as Hd.
  destruct (binary_round_aux_frac A 1 A (e + -47) loc_Exact)
    as [Hres Hb]; try lia.
  { apply exact_record. }
  set (k := Zdigits2 A - 53) in *.
  exists (Round.rne A (1 * 2 ^ k)), (e + -47 + k).
  split; [|split; [|lia]].
  - unfold SFmul. exact Hres.
  - pose proof (pow2_pos k ltac:(lia)) as Pk.
    exists A, (1 * 2 ^ k). split; [lia|].
    split; [|split; [exact Hb | reflexivity]].
    exists 1121, (e + 1074 + k). split; [lia|]. split; [lia|].
    split; [lia|].
    unfold Round.units. rewrite HA.
    rewrite (Z.pow_add_r 2 (e + 1074) k) by lia.
    change (2 ^ 1121) with (2 ^ 47 * 2 ^ 1074). ring.
Qed.

Lemma mul_int_50_spec (x : spec_float) (U : Z) :
  Round.is_float x U ->
  exists V, Round.rounded (50 * U) (2 ^ 1074) V /\
    ((V < Round.overflow_threshold /\
      exists y, Py.mul_int x 50 = Ok y /\ Round.is_float y V) \/
     (Round.overflow_threshold <= V /\
      Py.mul_int x 50 = Ok (S754_infinity false))).
Proof.
  intros (p & e & -> & Hp & He & ->).
  destruct (SFmul_50_rounds p e Hp ltac:(lia)) as (m & e' & Hmul & Hr & He').
  exists (Round.units m e'). split; [exists m, e'; auto|].
  pose proof (rounds_to_mantissa _ _ _ _ Hr) as Hm.
  unfold Py.mul_int. rewrite float_of_int_50. unfold bind. rewrite Hmul.
  destruct (pack_spec m e' Hm He') as [[Hlt Hf] | [Hge Hinf]].
  - left. split; [exact Hlt|]. exists (Round.pack m e'). auto.
  - right. split; [exact Hge|]. rewrite Hinf. reflexivity.
Qed.

(** ** The points of a positive amount, through the two roundings *)

Lemma calculate_ecomeals_points_spec (n : Z) :
  0 < n ->
  exists U, Round.rounded n 100 U /\
    ((Round.overflow_threshold <= U /\
      calculate_ecomeals_points n = Raise OverflowError) \/
     (U < Round.overflow_threshold /\
      exists V, Round.rounded (50 * U) (2 ^ 1074) V /\
        ((Round.overflow_threshold <= V /\
          calculate_ecomeals_points n = Raise OverflowError) \/
         (V < Round.overflow_threshold /\
          calculate_ecomeals_points n = Ok (V / 2 ^ 1074))))).
Proof.
  intros Hn. unfold calculate_ecomeals_points, POINTS_AWARDED_100GCO2, bind.
  destruct (truediv_100_spec n Hn)
    as (U & HU & [[Hlt (x & Hx & Hf)] | [Hge Hx]]);
    rewrite Hx; cbv beta iota.
  - exists U. split; [exact HU|]. right. split; [exact Hlt|].
    destruct (mul_int_50_spec x U Hf)
      as (V & HV & [[HltV (y & Hy & Hfy)] | [HgeV Hy]]);
      rewrite Hy; cbv beta iota.
    + exists V. split; [exact HV|]. right. split; [exact HltV|].
      apply floor_is_float. exact Hfy.
    + exists V. split; [exact HV|]. left. split; [exact HgeV|].
      reflexivity.
  - exists U. split; [exact HU|]. left. split; [exact Hge|].
    reflexivity.
Qed.

Lemma points_zero : calculate_ecomeals_points 0 = Ok 0.
Proof. reflexivity. Qed.

Lemma points_nonneg (n b : Z) :
  0 <= n -> calculate_ecomeals_points n = Ok b -> 0 <= b.
Proof.
  intros Hn Hb. destruct (Z.eq_dec n 0) as [-> | Hne].
  - rewrite points_zero in Hb. injection Hb as <-. lia.
  - destruct (calculate_ecomeals_points_spec n ltac:(lia))
      as (U & HU & [[_ H] | (_ & V & HV & [[_ H] | [_ H]])]);
      rewrite H in Hb; try discriminate.
    injection Hb as <-. pose proof (rounded_pos _ _ _ HV).
    apply Z.div_pos; [lia | apply pow2_pos; lia].
Qed.

Lemma points_mono_pos (n1 n2 b : Z) :
  0 < n1 <= n2 -> calculate_ecomeals_points n2 = Ok b ->
  exists a, calculate_ecomeals_points n1 = Ok a /\ a <= b.
Proof.
  intros Hn Hb.
  pose proof (pow2_pos 1074 ltac:(lia)) as P.
  destruct (calculate_ecomeals_points_spec n2 ltac:(lia))
    as (U2 & HU2 & [[_ H] | (Hlt2 & V2 & HV2 & [[_ H] | [HltV2 H]])]);
    rewrite H in Hb; try discriminate.
  injection Hb as <-.
  pose proof (rounded_pos _ _ _ HU2) as HposU2.
  destruct (calculate_ecomeals_points_spec n1 ltac:(lia))
    as (U1 & HU1 & Hcases).
  assert (HU : U1 <= U2)
    by (apply (rounded_mono n1 100 U1 n2 100 U2); try assumption; lia).
  destruct Hcases as [[Hge _] | (_ & V1 & HV1 & Hcases)]; [lia|].
  assert (HV : V1 <= V2).
  { apply (rounded_mono (50 * U1) (2 ^ 1074) V1 (50 * U2) (2 ^ 1074) V2);
      try assumption.
    apply Z.mul_le_mono_nonneg_r; lia. }
  destruct Hcases as [[Hge _] | [_ H1]]; [lia|].
  exists (V1 / 2 ^ 1074). split; [exact H1|].
  apply Z.div_le_mono; lia.
Qed.

Lemma points_mono (n1 n2 b : Z) :
  0 <= n1 <= n2 -> calculate_ecomeals_points n2 = Ok b ->
  exists a, calculate_ecomeals_points n1 = Ok a /\ a <= b.
Proof.
  intros Hn Hb. destruct (Z.eq_dec n1 0) as [-> | Hne].
  - exists 0. split; [apply points_zero|].
    apply (points_nonneg n2); [lia | exact Hb].
  - apply (points_mono_pos n1 n2); [lia | exact Hb].
Qed.


(** No exception below [2^1017]: the quotient and the product stay within
    the binary64 range. *)
Lemma points_total (n : Z) :
  0 <= n < 2 ^ 1017 -> exists b, calculate_ecomeals_points n = Ok b.
Proof.
  intros Hn. destruct (Z.eq_dec n 0) as [-> | Hne]; [exists 0; reflexivity|].
  pose proof (pow2_pos 1074 ltac:(lia)) as P.
  destruct (calculate_ecomeals_points_spec n ltac:(lia))
    as (U & HU & Hcases).
  assert (HupU : U <= 2 ^ (1017 + 1074))
    by (apply (rounded_upper n 100 U 1017); try assumption; lia).
  assert (HltU : U < Round.overflow_threshold).
  { unfold Round.overflow_threshold.
    apply Z.le_lt_trans with (2 ^ (1017 + 1074)); [exact HupU|].
    apply Z.pow_lt_mono_r; lia. }
  destruct Hcases as [[Hge _] | (_ & V & HV & Hcases)]; [lia|].
  assert (HupV : V <= 2 ^ (1023 + 1074)).
  { apply (rounded_upper (50 * U) (2 ^ 1074) V 1023);
      try assumption; lia. }
  assert (HltV : V < Round.overflow_threshold).
  { unfold Round.overflow_threshold.
    apply Z.le_lt_trans with (2 ^ (1023 + 1074)); [exact HupV|].
    apply Z.pow_lt_mono_r; lia. }
  destruct Hcases as [[Hge _] | [_ H]]; [lia|].
  eexists; exact H.
Qed.

(** ** Distance to the exact formula *)

Lemma rne_error (A B : Z) :
  0 < B -> Z.abs (2 * (Round.rne A B * B - A)) <= B.
Proof.
  intros HB. unfold Round.rne.
  pose proof (Z.div_mod A B ltac:(lia)) as E.
  pose proof (Z.mod_pos_bound A B HB) as R.
  destruct (Z.compare_spec (2 * (A mod B)) B) as [H|H|H];
    [destruct (Z.even (A / B))| |]; lia.
Qed.

Lemma rounds_to_error (N D m e : Z) :
  0 < D -> Round.rounds_to N D m e -> -1074 <= e ->
  Z.abs (Round.units m e * D - N * 2 ^ 1074) * 2 ^ 53 <= N * 2 ^ 1074.
Proof.
  intros HD (A & B & HB & (a & b & Ha & Hb & He & Hs) & Hr & ->) Hmin.
  pose proof (pow2_pos a Ha) as Pa. pose proof (pow2_pos b Hb) as Pb.
  pose proof (pow2_pos 1074 ltac:(lia)) as PW.
  pose proof (pow2_pos (e + 1074) ltac:(lia)) as PT.
  assert (HTX : 2 ^ (e + 1074) * 2 ^ a = 2 ^ b * 2 ^ 1074).
  { rewrite <- !Z.pow_add_r by lia. f_equal. lia. }
  unfold Round.units.
  set (m := Round.rne A B). set (W := 2 ^ 1074) in *.
  set (T := 2 ^ (e + 1074)) in *. set (X := 2 ^ a) in *.
  set (Y := 2 ^ b) in *.
  pose proof (rne_error A B HB) as Herr. fold m in Herr.
  assert (HBX : 0 < B * X) by (apply Z.mul_pos_pos; lia).
  assert (HDYW : 0 < D * Y * W)
    by (apply Z.mul_pos_pos; [apply Z.mul_pos_pos|]; lia).
  assert (Hid : (m * T * D - N * W) * (B * X) = (m * B - A) * (D * Y * W)).
  { transitivity (m * B * D * (T * X) - N * X * B * W); [ring|].
    rewrite HTX, <- Hs. ring. }
  assert (Hsmall : Z.abs (m * B - A) * 2 ^ 53 <= A) by lia.
  apply (Z.mul_le_mono_pos_r _ _ (B * X)); [exact HBX|].
  replace (Z.abs (m * T * D - N * W) * 2 ^ 53 * (B * X))
    with (Z.abs ((m * T * D - N * W) * (B * X)) * 2 ^ 53)
    by (rewrite Z.abs_mul, (Z.abs_eq (B * X)) by lia; ring).
  rewrite Hid, Z.abs_mul, (Z.abs_eq (D * Y * W)) by lia.
  replace (N * W * (B * X)) with (A * (D * Y * W))
    by (transitivity (A * D * Y * W); [ring | rewrite Hs; ring]).
  replace (Z.abs (m * B - A) * (D * Y * W) * 2 ^ 53)
    with (Z.abs (m * B - A) * 2 ^ 53 * (D * Y * W)) by ring.
  apply Z.mul_le_mono_nonneg_r; lia.
Qed.

Lemma rounded_error (N D U : Z) :
  0 < D -> Round.rounded N D U ->
  Z.abs (U * D - N * 2 ^ 1074) * 2 ^ 53 <= N * 2 ^ 1074.
Proof.
  intros HD (m & e & Hr & He & ->). apply rounds_to_error; assumption.
Qed.

Lemma exact_points_half (n : Z) : exact_points n = n / 2.
Proof.
  unfold exact_points, POINTS_AWARDED_100GCO2.
  change 100 with (2 * 50). apply Z.div_mul_cancel_r; lia.
Qed.

(** Below [2^51] grams the code returns the exact number of points or one
    point less, and the exact number on an odd amount. *)
Lemma points_within_one (n : Z) :
  0 <= n < 2 ^ 51 ->
  exists p, calculate_ecomeals_points n = Ok p /\
            exact_points n - 1 <= p <= exact_points n /\
            (Z.odd n = true -> p = exact_points n).
Proof.
  intros Hn. rewrite exact_points_half.
  destruct (Z.eq_dec n 0) as [-> | Hne].
  { exists 0. repeat split; try reflexivity; discriminate. }
  set (W := 2 ^ 1074).
  assert (PW : 0 < W) by (apply pow2_pos; lia).
  destruct (calculate_ecomeals_points_spec n ltac:(lia))
    as (U & HU & Hcases).
  pose proof (rounded_error n 100 U ltac:(lia) HU) as E1. fold W in E1.
  pose proof (rounded_pos _ _ _ HU) as HposU.
  assert (HnW : W <= n * W <= (2 ^ 51 - 1) * W) by nia.
  set (Z := n * W) in *.
  assert (HltU : U < Round.overflow_threshold).
  { unfold Round.overflow_threshold.
    change (2 ^ 2098) with (2 ^ 1024 * W).
    assert (2 ^ 51 * W < 2 ^ 1024 * W)
      by (apply Z.mul_lt_mono_pos_r; [exact PW | reflexivity]).
    lia. }
  destruct Hcases as [[Hge _] | (_ & V & HV & Hcases)]; [lia|].
  pose proof (rounded_error (50 * U) W V PW HV) as E2. fold W in E2.
  replace (V * W - 50 * U * W) with ((V - 50 * U) * W) in E2 by ring.
  rewrite Z.abs_mul, (Z.abs_eq W) in E2 by lia.
  replace (Z.abs (V - 50 * U) * W * 2 ^ 53)
    with (Z.abs (V - 50 * U) * 2 ^ 53 * W) in E2 by ring.
  apply Z.mul_le_mono_pos_r in E2; [|exact PW].
  assert (Hclose : Z - W < 2 * V < Z + W) by lia.
  assert (HltV : V < Round.overflow_threshold).
  { unfold Round.overflow_threshold.
    change (2 ^ 2098) with (2 ^ 1024 * W).
    assert (2 ^ 51 * W < 2 ^ 1024 * W)
      by (apply Z.mul_lt_mono_pos_r; [exact PW | reflexivity]).
    lia. }
  destruct Hcases as [[Hge _] | [_ Hp]]; [lia|].
  exists (V / W). split; [exact Hp|].
  pose proof (Z.div_mod n 2 ltac:(lia)) as Hdm.
  pose proof (Z.mod_pos_bound n 2 ltac:(lia)) as Hr.
  assert (HZ : Z = 2 * (n / 2 * W) + n mod 2 * W) by (unfold Z; nia).
  set (K := n / 2 * W) in *.
  assert (Hup : V / W < n / 2 + 1).
  { apply Z.div_lt_upper_bound; [exact PW|].
    replace (W * (n / 2 + 1)) with (K + W) by (unfold K; ring). nia. }
  split; [split|].
  - apply Z.div_le_lower_bound; [exact PW|].
    replace (W * (n / 2 - 1)) with (K - W) by (unfold K; ring). nia.
  - lia.
  - intros Hodd. rewrite Zmod_odd, Hodd in HZ.
    apply Z.le_antisymm; [lia|].
    apply Z.div_le_lower_bound; [exact PW|].
    replace (W * (n / 2)) with K by (unfold K; ring). lia.
Qed.

(** * The claims *)

(** ** The CO2 reduction *)

Lemma co2_reduced_flags (d : gmap string bool) (b l dn : bool) :
  d !! "eco_breakfast" = Some b ->
  (b = false -> d !! "eco_lunch" = Some l) ->
  (b = false -> l = false -> d !! "eco_dinner" = Some dn) ->
  calculate_co2_reduced d =
  Ok (if b then 1500 else if l then 2820 else if dn then 3700 else 0).
Proof.
  intros Hb Hl Hd. unfold calculate_co2_reduced, Py.getitem, bind.
  rewrite Hb. destruct b; [reflexivity|].
  rewrite (Hl eq_refl). destruct l; [reflexivity|].
  rewrite (Hd eq_refl eq_refl). destruct dn; reflexivity.
Qed.

Lemma co2_reduced_well_formed (d : gmap string bool) :
  well_formed d ->
  exists b l dn : bool,
    d !! "eco_breakfast" = Some b /\ d !! "eco_lunch" = Some l /\
    d !! "eco_dinner" = Some dn /\
    calculate_co2_reduced d =
    Ok (if b then 1500 else if l then 2820 else if dn then 3700 else 0).
Proof.
  intros ([b Hb] & [l Hl] & [dn Hd]). exists b, l, dn.
  repeat split; try assumption.
  apply co2_reduced_flags; auto.
Qed.

Lemma selection_well_formed (b l dn : bool) : well_formed (selection b l dn).
Proof. repeat split; eexists; reflexivity. Qed.

(** C1. The flags are tested in the fixed order breakfast, lunch, dinner and
    the first one set decides: 1500 when [eco_breakfast] is true whatever
    the other two are (they are not even read), else 2820 when [eco_lunch]
    is true, else 3700 when [eco_dinner] is true, else 0. *)
Theorem C1_first_flag_wins (d : gmap string bool) (b l dn : bool) :
  d !! "eco_breakfast" = Some b ->
  (b = false -> d !! "eco_lunch" = Some l) ->
  (b = false -> l = false -> d !! "eco_dinner" = Some dn) ->
  calculate_co2_reduced d =
  Ok (if b then 1500 else if l then 2820 else if dn then 3700 else 0).
Proof. apply co2_reduced_flags. Qed.

Lemma C1_first_flag_wins_witness :
  calculate_co2_reduced (selection true true true) = Ok 1500.
Proof.
  apply (C1_first_flag_wins (selection true true true) true true true).
  - reflexivity.
  - intros _. reflexivity.
  - intros _ _. reflexivity.
Defined.

(** C2. At 58 grams the exact formula [floor(58 / 100 * 50)] is 29, while the
    code, which divides and multiplies in binary64 before taking the floor,
    returns 28; the three amounts the view can produce are converted as the
    formula says. *)
Theorem C2_points_at_58 :
  calculate_ecomeals_points 58 = Ok 28 /\ exact_points 58 = 29 /\
  calculate_ecomeals_points 1500 = Ok 750 /\
  calculate_ecomeals_points 2820 = Ok 1410 /\
  calculate_ecomeals_points 3700 = Ok 1850.
Proof. repeat split; vm_compute; reflexivity. Qed.




(** ** The pipeline on a well-formed selection *)

Lemma pipeline (d : gmap string bool) :
  well_formed d ->
  exists co2 pts,
    calculate_co2_reduced d = Ok co2 /\
    calculate_ecomeals_points co2 = Ok pts /\
    (co2 = 0 \/ co2 = 1500 \/ co2 = 2820 \/ co2 = 3700) /\
    co2 = 2 * pts.
Proof.
  intros Hwf.
  destruct (co2_reduced_well_formed d Hwf) as (b & l & dn & _ & _ & _ & ->).
  destruct b; [|destruct l; [|destruct dn]].
  - exists 1500, 750. repeat split; auto.
  - exists 2820, 1410. repeat split; auto.
  - exists 3700, 1850. repeat split; auto.
  - exists 0, 0. repeat split; auto.
Qed.

(** C4. On a well-formed selection both functions return: the reduction is
    computed without a [KeyError], and its conversion to points raises
    neither [ZeroDivisionError] nor [OverflowError] nor [ValueError]. *)
Theorem C4_total_on_well_formed (d : gmap string bool) :
  well_formed d ->
  exists co2 pts,
    calculate_co2_reduced d = Ok co2 /\
    calculate_ecomeals_points co2 = Ok pts.
Proof.
  intros Hwf. destruct (pipeline d Hwf) as (co2 & pts & H1 & H2 & _).
  exists co2, pts. auto.
Qed.

Lemma C4_total_on_well_formed_witness :
  exists co2 pts,
    calculate_co2_reduced (selection false true false) = Ok co2 /\
    calculate_ecomeals_points co2 = Ok pts.
Proof.
  apply (C4_total_on_well_formed (selection false true false)).
  repeat split; eexists; reflexivity.
Defined.

(** C5. With the three flags false the reduction is 0, and 0 grams earn 0
    points. *)
Theorem C5_no_selection (d : gmap string bool) :
  d !! "eco_breakfast" = Some false ->
  d !! "eco_lunch" = Some false ->
  d !! "eco_dinner" = Some false ->
  calculate_co2_reduced d = Ok 0 /\ calculate_ecomeals_points 0 = Ok 0.
Proof.
  intros Hb Hl Hd. split; [|apply points_zero].
  apply (co2_reduced_flags d false false false); auto.
Qed.

Lemma C5_no_selection_witness :
  calculate_co2_reduced (selection false false false) = Ok 0 /\
  calculate_ecomeals_points 0 = Ok 0.
Proof.
  apply (C5_no_selection (selection false false false)); reflexivity.
Defined.

(** C6. The points never decrease when the amount grows: for
    [0 <= m <= n], whenever the conversion of [n] returns, that of [m]
    returns too, with no more points; and both return when [n] is below
    [2^1017]. *)
Theorem C6_points_monotone (m n : Z) :
  0 <= m <= n ->
  (forall b, calculate_ecomeals_points n = Ok b ->
     exists a, calculate_ecomeals_points m = Ok a /\ a <= b) /\
  (n < 2 ^ 1017 ->
     exists a b, calculate_ecomeals_points m = Ok a /\
                 calculate_ecomeals_points n = Ok b /\ a <= b).
Proof.
  intros Hmn. split.
  - intros b Hb. apply (points_mono m n b Hmn Hb).
  - intros Hn. destruct (points_total n ltac:(lia)) as [b Hb].
    destruct (points_mono m n b Hmn Hb) as (a & Ha & Hle).
    exists a, b. auto.
Qed.

Lemma C6_points_monotone_witness :
  (forall b, calculate_ecomeals_points 2820 = Ok b ->
     exists a, calculate_ecomeals_points 1500 = Ok a /\ a <= b) /\
  (2820 < 2 ^ 1017 ->
     exists a b, calculate_ecomeals_points 1500 = Ok a /\
                 calculate_ecomeals_points 2820 = Ok b /\ a <= b).
Proof.
  apply (C6_points_monotone 1500 2820). split; discriminate.
Defined.

(** C7. For a well-formed selection the reduction and the points are both
    returned and both non-negative. *)
Theorem C7_impact_non_negative (d : gmap string bool) :
  well_formed d ->
  exists co2 pts,
    calculate_co2_reduced d = Ok co2 /\
    calculate_ecomeals_points co2 = Ok pts /\ 0 <= co2 /\ 0 <= pts.
Proof.
  intros Hwf. destruct (pipeline d Hwf) as (co2 & pts & H1 & H2 & Hv & Hh).
  exists co2, pts. repeat split; auto; lia.
Qed.

Lemma C7_impact_non_negative_witness :
  exists co2 pts,
    calculate_co2_reduced (selection false false true) = Ok co2 /\
    calculate_ecomeals_points co2 = Ok pts /\ 0 <= co2 /\ 0 <= pts.
Proof.
  apply (C7_impact_non_negative (selection false false true)).
  repeat split; eexists; reflexivity.
Defined.

(** C9. For a well-formed selection the reduction returned is one of 0,
    1500, 2820 and 3700. *)
Theorem C9_reduction_values (d : gmap string bool) :
  well_formed d ->
  exists co2, calculate_co2_reduced d = Ok co2 /\
              (co2 = 0 \/ co2 = 1500 \/ co2 = 2820 \/ co2 = 3700).
Proof.
  intros Hwf. destruct (pipeline d Hwf) as (co2 & pts & H1 & _ & Hv & _).
  exists co2. auto.
Qed.

Lemma C9_reduction_values_witness :
  exists co2, calculate_co2_reduced (selection true false true) = Ok co2 /\
              (co2 = 0 \/ co2 = 1500 \/ co2 = 2820 \/ co2 = 3700).
Proof.
  apply (C9_reduction_values (selection true false true)).
  repeat split; eexists; reflexivity.
Defined.

(** C10. For a well-formed selection the points are exactly half of the
    reduction, which is even: nothing is lost to the floor. *)
Theorem C10_points_half_of_reduction (d : gmap string bool) :
  well_formed d ->
  exists co2 pts,
    calculate_co2_reduced d = Ok co2 /\
    calculate_ecomeals_points co2 = Ok pts /\
    pts = co2 / 2 /\ co2 mod 2 = 0.
Proof.
  intros Hwf. destruct (pipeline d Hwf) as (co2 & pts & H1 & H2 & _ & Hh).
  exists co2, pts. repeat split; auto.
  - subst co2. rewrite Z.mul_comm, Z.div_mul; lia.
  - subst co2. rewrite Z.mul_comm. apply Z.mod_mul. lia.
Qed.

Lemma C10_points_half_of_reduction_witness :
  exists co2 pts,
    calculate_co2_reduced (selection true true false) = Ok co2 /\
    calculate_ecomeals_points co2 = Ok pts /\
    pts = co2 / 2 /\ co2 mod 2 = 0.
Proof.
  apply (C10_points_half_of_reduction (selection true true false)).
  repeat split; eexists; reflexivity.
Defined.

(** * Further behaviour of the calculator *)

(** ** Missing flags *)

(** X1. [calculate_co2_reduced] raises exactly when a flag it has to read is
    absent, and the [KeyError] names that flag: [eco_breakfast] first,
    [eco_lunch] only after a false breakfast flag, [eco_dinner] only after two
    false flags. *)
Theorem X1_co2_reduced_key_errors (d : gmap string bool) (e : exn) :
  calculate_co2_reduced d = Raise e <->
  (e = KeyError "eco_breakfast" /\ d !! "eco_breakfast" = None) \/
  (e = KeyError "eco_lunch" /\
   d !! "eco_breakfast" = Some false /\ d !! "eco_lunch" = None) \/
  (e = KeyError "eco_dinner" /\
   d !! "eco_breakfast" = Some false /\ d !! "eco_lunch" = Some false /\
   d !! "eco_dinner" = None).
Proof.
  unfold calculate_co2_reduced, Py.getitem, bind.
  destruct (d !! "eco_breakfast") as [[|]|];
    [| destruct (d !! "eco_lunch") as [[|]|];
       [| destruct (d !! "eco_dinner") as [[|]|] |] |];
    (split;
     [ intros H; try discriminate; injection H as <-; tauto
     | intros [[-> H] | [[-> H] | [-> H]]];
       try reflexivity;
       repeat match type of H with _ /\ _ => destruct H as [? H] end;
       discriminate ]).
Qed.

(** ** First match, not a sum *)

(** X2. Flagging one more meal can lower the reduction: when lunch or dinner
    is flagged, a payload that also flags breakfast is credited 1500 g,
    strictly less than the same payload without the breakfast flag; and when
    dinner is flagged without breakfast, flagging lunch too lowers the credit
    from 3700 g to 2820 g. *)
Theorem X2_more_flags_less_credit (d : gmap string bool) (l dn : bool) :
  d !! "eco_lunch" = Some l -> d !! "eco_dinner" = Some dn ->
  l || dn = true ->
  (exists a b,
     calculate_co2_reduced (<["eco_breakfast" := true]> d) = Ok a /\
     calculate_co2_reduced (<["eco_breakfast" := false]> d) = Ok b /\
     a < b) /\
  (dn = true ->
   calculate_co2_reduced
     (<["eco_lunch" := true]> (<["eco_breakfast" := false]> d)) = Ok 2820 /\
   calculate_co2_reduced
     (<["eco_lunch" := false]> (<["eco_breakfast" := false]> d)) = Ok 3700).
Proof.
  intros Hl Hd Hor. split.
  - exists 1500, (if l then 2820 else 3700). split; [|split].
    + apply (co2_reduced_flags _ true l dn); intros;
        simplify_map_eq; reflexivity.
    + rewrite (co2_reduced_flags _ false l dn); intros;
        simplify_map_eq; try reflexivity.
      destruct l, dn; try reflexivity; discriminate.
    + destruct l; lia.
  - intros ->. split.
    + apply (co2_reduced_flags _ false true true); intros;
        simplify_map_eq; reflexivity.
    + apply (co2_reduced_flags _ false false true); intros;
        simplify_map_eq; reflexivity.
Qed.

Lemma X2_more_flags_less_credit_witness :
  (exists a b,
     calculate_co2_reduced
       (<["eco_breakfast" := true]> (selection false false true)) = Ok a /\
     calculate_co2_reduced
       (<["eco_breakfast" := false]> (selection false false true)) = Ok b /\
     a < b) /\
  (true = true ->
   calculate_co2_reduced
     (<["eco_lunch" := true]>
        (<["eco_breakfast" := false]> (selection false false true)))
     = Ok 2820 /\
   calculate_co2_reduced
     (<["eco_lunch" := false]>
        (<["eco_breakfast" := false]> (selection false false true)))
     = Ok 3700).
Proof.
  apply (X2_more_flags_less_credit (selection false false true) false true);
    reflexivity.
Defined.

(** ** Negative amounts and the two signs together *)

Lemma binary_round_aux_opp (m e : Z) (l : location) :
  binary_round_aux Py.prec Py.emax true m e l =
  SFopp (binary_round_aux Py.prec Py.emax false m e l).
Proof.
  unfold binary_round_aux.
  destruct (shr_fexp Py.prec Py.emax m e l) as [mrs e'].
  destruct (shr_fexp Py.prec Py.emax _ e' loc_Exact) as [mrs' e''].
  destruct (shr_m mrs'); try reflexivity.
  destruct (e'' <=? Py.emax - Py.prec); reflexivity.
Qed.

Lemma truediv_100_neg (p : positive) :
  Py.truediv (Zneg p) 100 =
  match Py.truediv (Zpos p) 100 with
  | Ok x => Ok (SFopp x)
  | Raise e => Raise e
  end.
Proof.
  unfold Py.truediv. change (100 =? 0) with false. cbv iota.
  unfold Py.exact, SFdiv.
  destruct (SFdiv_core_binary Py.prec Py.emax (Zpos p) 0 100 0)
    as [[mz ez] lz].
  change (xorb true false) with true. change (xorb false false) with false.
  rewrite binary_round_aux_opp.
  destruct (binary_round_aux Py.prec Py.emax false mz ez lz); reflexivity.
Qed.

Lemma mul_int_50_neg (p : positive) (e : Z) :
  Py.mul_int (S754_finite true p e) 50 =
  match Py.mul_int (S754_finite false p e) 50 with
  | Ok y => Ok (SFopp y)
  | Raise err => Raise err
  end.
Proof.
  unfold Py.mul_int. rewrite float_of_int_50. unfold bind, SFmul.
  change (xorb true false) with true. change (xorb false false) with false.
  rewrite binary_round_aux_opp. reflexivity.
Qed.

Lemma floor_opp_is_float (x : spec_float) (U : Z) :
  Round.is_float x U -> Py.floor (SFopp x) = Ok (- U / 2 ^ 1074).
Proof.
  intros (p & e & -> & Hp & He & ->). simpl.
  change (Z.neg p) with (- Zpos p).
  rewrite shiftl_units by lia. unfold Round.units.
  rewrite Z.mul_opp_l. reflexivity.
Qed.

(** The points of [n] and of [- n], for a positive [n], through the same two
    roundings. *)
Lemma calculate_ecomeals_points_signed_spec (n : Z) :
  0 < n ->
  exists U, Round.rounded n 100 U /\
    ((Round.overflow_threshold <= U /\
      calculate_ecomeals_points n = Raise OverflowError /\
      calculate_ecomeals_points (- n) = Raise OverflowError) \/
     (U < Round.overflow_threshold /\
      exists V, Round.rounded (50 * U) (2 ^ 1074) V /\
        ((Round.overflow_threshold <= V /\
          calculate_ecomeals_points n = Raise OverflowError /\
          calculate_ecomeals_points (- n) = Raise OverflowError) \/
         (V < Round.overflow_threshold /\
          calculate_ecomeals_points n = Ok (V / 2 ^ 1074) /\
          calculate_ecomeals_points (- n) = Ok (- V / 2 ^ 1074))))).
Proof.
  intros Hn. destruct n as [| p | p]; try lia.
  change (- Zpos p) with (Zneg p).
  unfold calculate_ecomeals_points, POINTS_AWARDED_100GCO2, bind.
  rewrite truediv_100_neg.
  destruct (truediv_100_spec (Zpos p) Hn)
    as (U & HU & [[Hlt (x & Hx & Hf)] | [Hge Hx]]);
    rewrite Hx; cbv beta iota.
  - exists U. split; [exact HU|]. right. split; [exact Hlt|].
    destruct (mul_int_50_spec x U Hf)
      as (V & HV & [[HltV (y & Hy & Hfy)] | [HgeV Hy]]).
    + exists V. split; [exact HV|]. right. split; [exact HltV|].
      destruct Hf as (q & e & -> & Hq & He & ->).
      change (SFopp (S754_finite false q e)) with (S754_finite true q e).
      rewrite mul_int_50_neg, Hy. cbv beta iota.
      split; [apply floor_is_float | apply floor_opp_is_float]; exact Hfy.
    + exists V. split; [exact HV|]. left. split; [exact HgeV|].
      destruct Hf as (q & e & -> & Hq & He & ->).
      change (SFopp (S754_finite false q e)) with (S754_finite true q e).
      rewrite mul_int_50_neg, Hy. split; reflexivity.
  - exists U. split; [exact HU|]. left. split; [exact Hge|].
    split; reflexivity.
Qed.

Lemma points_neg_returns (n p : Z) :
  0 < n -> calculate_ecomeals_points n = Ok p ->
  exists q, calculate_ecomeals_points (- n) = Ok q /\ - p - 1 <= q <= - p.
Proof.
  intros Hn Hp.
  pose proof (pow2_pos 1074 ltac:(lia)) as PW.
  destruct (calculate_ecomeals_points_signed_spec n Hn)
    as (U & HU & [(_ & H & _) | (_ & V & HV & [(_ & H & _) | (_ & H & H')])]);
    rewrite H in Hp; try discriminate.
  injection Hp as <-. exists (- V / 2 ^ 1074). split; [exact H'|].
  pose proof (Z.div_mod V (2 ^ 1074) ltac:(lia)) as E.
  pose proof (Z.mod_pos_bound V (2 ^ 1074) PW) as R.
  set (W := 2 ^ 1074) in *. split.
  - apply Z.div_le_lower_bound; [exact PW|]. nia.
  - assert (- V / W < - (V / W) + 1); [|lia].
    apply Z.div_lt_upper_bound; [exact PW|]. nia.
Qed.

Lemma points_neg_raises (n : Z) :
  0 < n -> calculate_ecomeals_points n = Raise OverflowError ->
  calculate_ecomeals_points (- n) = Raise OverflowError.
Proof.
  intros Hn Hp.
  destruct (calculate_ecomeals_points_signed_spec n Hn)
    as (U & HU & [(_ & _ & H) | (_ & V & HV & [(_ & _ & H) | (_ & H & _)])]);
    try exact H.
  rewrite H in Hp. discriminate.
Qed.

(** ** Beyond the binary64 range *)

Lemma points_last_returning :
  exists p, calculate_ecomeals_points (2 ^ 1025 - 19 * 2 ^ 967) = Ok p.
Proof. eexists. vm_compute. reflexivity. Qed.

Lemma points_first_raising :
  calculate_ecomeals_points (2 ^ 1025 - 19 * 2 ^ 967 + 1) =
  Raise OverflowError.
Proof. vm_compute. reflexivity. Qed.

Lemma points_range_nonneg (n : Z) :
  0 <= n ->
  (n <= 2 ^ 1025 - 19 * 2 ^ 967 ->
   exists p, calculate_ecomeals_points n = Ok p) /\
  (2 ^ 1025 - 19 * 2 ^ 967 < n ->
   calculate_ecomeals_points n = Raise OverflowError).
Proof.
  intros Hn. split; intros Hle.
  - destruct points_last_returning as [b Hb].
    destruct (points_mono n _ b (conj Hn Hle) Hb) as (a & Ha & _).
    exists a. exact Ha.
  - destruct (calculate_ecomeals_points_spec n ltac:(lia))
      as (U & HU & [[_ H] | (_ & V & HV & [[_ H] | [_ H]])]);
      try exact H.
    exfalso.
    assert (Hpos : 0 <= 2 ^ 1025 - 19 * 2 ^ 967 + 1) by discriminate.
    destruct (points_mono (2 ^ 1025 - 19 * 2 ^ 967 + 1) n _
                ltac:(lia) H) as (a & Ha & _).
    rewrite points_first_raising in Ha. discriminate.
Qed.

(** X3. The conversion returns exactly for the amounts of absolute value at
    most [2^1025 - 19 * 2^967]; for every larger one, of either sign, it
    raises [OverflowError] (the quotient or the product has left the
    binary64 range). *)
Theorem X3_points_defined_range (n : Z) :
  (Z.abs n <= 2 ^ 1025 - 19 * 2 ^ 967 ->
   exists p, calculate_ecomeals_points n = Ok p) /\
  (2 ^ 1025 - 19 * 2 ^ 967 < Z.abs n ->
   calculate_ecomeals_points n = Raise OverflowError).
Proof.
  destruct (points_range_nonneg (Z.abs n) (Z.abs_nonneg n)) as [Hok Hraise].
  destruct (Z.abs_spec n) as [[Hn E] | [Hn E]]; rewrite E in *.
  - split; assumption.
  - split; intros H.
    + destruct (Hok H) as [p Hp].
      destruct (points_neg_returns (- n) p ltac:(lia) Hp) as (q & Hq & _).
      rewrite Z.opp_involutive in Hq. exists q. exact Hq.
    + pose proof (points_neg_raises (- n) ltac:(lia) (Hraise H)) as Hq.
      rewrite Z.opp_involutive in Hq. exact Hq.
Qed.

(** ** One point off at most, in both signs *)

Lemma points_units_close (n U V : Z) :
  0 < n < 2 ^ 51 ->
  Round.rounded n 100 U -> Round.rounded (50 * U) (2 ^ 1074) V ->
  (n - 1) * 2 ^ 1074 < 2 * V < (n + 1) * 2 ^ 1074.
Proof.
  intros Hn HU HV.
  set (W := 2 ^ 1074) in *.
  assert (PW : 0 < W) by (apply pow2_pos; lia).
  pose proof (rounded_error n 100 U ltac:(lia) HU) as E1. fold W in E1.
  pose proof (rounded_pos _ _ _ HU) as HposU.
  pose proof (rounded_error (50 * U) W V PW HV) as E2. fold W in E2.
  replace (V * W - 50 * U * W) with ((V - 50 * U) * W) in E2 by ring.
  rewrite Z.abs_mul, (Z.abs_eq W) in E2 by lia.
  replace (Z.abs (V - 50 * U) * W * 2 ^ 53)
    with (Z.abs (V - 50 * U) * 2 ^ 53 * W) in E2 by ring.
  apply Z.mul_le_mono_pos_r in E2; [|exact PW].
  assert (HnW : W <= n * W <= (2 ^ 51 - 1) * W) by nia.
  replace ((n - 1) * W) with (n * W - W) by ring.
  replace ((n + 1) * W) with (n * W + W) by ring.
  set (Z := n * W) in *. lia.
Qed.

Lemma floor_close (n V W : Z) :
  0 < W -> (n - 1) * W < 2 * V < (n + 1) * W ->
  n / 2 - 1 <= V / W <= n / 2 /\ (Z.odd n = true -> V / W = n / 2).
Proof.
  intros PW Hclose.
  pose proof (Z.div_mod n 2 ltac:(lia)) as Hdm.
  pose proof (Z.mod_pos_bound n 2 ltac:(lia)) as Hr.
  assert (HZ : n * W = 2 * (n / 2 * W) + n mod 2 * W) by nia.
  replace ((n - 1) * W) with (n * W - W) in Hclose by ring.
  replace ((n + 1) * W) with (n * W + W) in Hclose by ring.
  set (K := n / 2 * W) in *. set (Z := n * W) in *.
  assert (Hup : V / W < n / 2 + 1).
  { apply Z.div_lt_upper_bound; [exact PW|].
    replace (W * (n / 2 + 1)) with (K + W) by (unfold K; ring). nia. }
  assert (Hlow : n / 2 - 1 <= V / W).
  { apply Z.div_le_lower_bound; [exact PW|].
    replace (W * (n / 2 - 1)) with (K - W) by (unfold K; ring). nia. }
  split; [lia|].
  intros Hodd. rewrite Zmod_odd, Hodd in HZ.
  apply Z.le_antisymm; [lia|].
  apply Z.div_le_lower_bound; [exact PW|].
  replace (W * (n / 2)) with K by (unfold K; ring). lia.
Qed.

Lemma points_neg_units (k q : Z) :
  0 < k -> calculate_ecomeals_points (- k) = Ok q ->
  exists U V, Round.rounded k 100 U /\
              Round.rounded (50 * U) (2 ^ 1074) V /\
              q = - V / 2 ^ 1074.
Proof.
  intros Hk Hq.
  destruct (calculate_ecomeals_points_signed_spec k Hk)
    as (U & HU & [(_ & _ & H) | (_ & V & HV & [(_ & _ & H) | (_ & _ & H)])]);
    rewrite H in Hq; try discriminate.
  injection Hq as <-. exists U, V. auto.
Qed.

(** X4. For every amount of absolute value below [2^51] grams, negative
    ones included, the conversion returns the exact [floor(n / 100 * 50)] or
    one point less, and the exact value whenever [n] is odd. *)
Theorem X4_points_within_one_of_exact (n : Z) :
  - 2 ^ 51 < n < 2 ^ 51 ->
  exists p, calculate_ecomeals_points n = Ok p /\
            exact_points n - 1 <= p <= exact_points n /\
            (Z.odd n = true -> p = exact_points n).
Proof.
  intros Hn. destruct (Z_le_gt_dec 0 n) as [Hpos | Hneg].
  - apply points_within_one. lia.
  - rewrite exact_points_half.
    destruct (points_within_one (- n) ltac:(lia)) as (p' & Hp' & _).
    destruct (points_neg_returns (- n) p' ltac:(lia) Hp') as (q & Hq & _).
    rewrite Z.opp_involutive in Hq.
    exists q. split; [exact Hq|].
    replace n with (- - n) in Hq by lia.
    destruct (points_neg_units (- n) q ltac:(lia) Hq)
      as (U & V & HU & HV & ->).
    pose proof (points_units_close (- n) U V ltac:(lia) HU HV) as Hc.
    assert (PW : 0 < 2 ^ 1074) by (apply pow2_pos; lia).
    set (W := 2 ^ 1074) in *.
    destruct (floor_close n (- V) W PW) as [Hb Ho]; [nia|].
    split; assumption.
Qed.

Lemma X4_points_within_one_of_exact_witness :
  exists p, calculate_ecomeals_points (-58) = Ok p /\
            exact_points (-58) - 1 <= p <= exact_points (-58) /\
            (Z.odd (-58) = true -> p = exact_points (-58)).
Proof.
  apply (X4_points_within_one_of_exact (-58)). split; reflexivity.
Defined.

(** ** Monotone on all integers *)

(** X5. On all integers, negative ones included, the conversion is
    monotone: of two amounts that are both converted, the smaller never
    earns more points. *)
Theorem X5_points_monotone_on_integers (m n a b : Z) :
  m <= n ->
  calculate_ecomeals_points m = Ok a ->
  calculate_ecomeals_points n = Ok b ->
  a <= b.
Proof.
  intros Hmn Ha Hb.
  assert (PW : 0 < 2 ^ 1074) by (apply pow2_pos; lia).
  destruct (Z_le_gt_dec 0 m) as [Hm | Hm].
  - destruct (points_mono m n b ltac:(lia) Hb) as (a' & Ha' & Hle).
    rewrite Ha in Ha'. injection Ha' as <-. exact Hle.
  - replace m with (- - m) in Ha by lia.
    destruct (points_neg_units (- m) a ltac:(lia) Ha)
      as (U1 & V1 & HU1 & HV1 & ->).
    pose proof (rounded_pos _ _ _ HU1) as HposU1.
    pose proof (rounded_pos _ _ _ HV1) as HposV1.
    destruct (Z_le_gt_dec 0 n) as [Hn | Hn].
    + pose proof (points_nonneg n b Hn Hb).
      assert (- V1 / 2 ^ 1074 < 0); [|lia].
      apply Z.div_lt_upper_bound; lia.
    + replace n with (- - n) in Hb by lia.
      destruct (points_neg_units (- n) b ltac:(lia) Hb)
        as (U2 & V2 & HU2 & HV2 & ->).
      assert (HU : U2 <= U1)
        by (apply (rounded_mono (- n) 100 U2 (- m) 100 U1);
            try assumption; lia).
      assert (HV : V2 <= V1).
      { apply (rounded_mono (50 * U2) (2 ^ 1074) V2 (50 * U1) (2 ^ 1074) V1);
          try assumption.
        apply Z.mul_le_mono_nonneg_r; lia. }
      apply Z.div_le_mono; lia.
Qed.

Lemma X5_points_monotone_on_integers_witness : -29 <= 28.
Proof.
  apply (X5_points_monotone_on_integers (-58) 58 (-29) 28);
    [discriminate | vm_compute; reflexivity | vm_compute; reflexivity].
Defined.

(** * The view: crediting a profile *)

Import View.

(** ** [Profile.objects.get] *)

Lemma get_unique (w : world) (name : string) (pk : nat) (p : Profile) :
  profiles w !! pk = Some p -> username p = name ->
  (forall k q, profiles w !! k = Some q -> username q = name -> k = pk) ->
  Profile_objects_get name w = (Done (pk, p), w).
Proof.
  intros Hp Hname Huniq. unfold Profile_objects_get.
  assert (E : filter (fun kp : nat * Profile => username (snd kp) = name)
                     (profiles w) = {[pk := p]}).
  { apply map_eq. intros k. apply option_eq. intros q.
    rewrite map_lookup_filter_Some, lookup_singleton_Some. simpl.
    split.
    - intros [Hq Hn]. pose proof (Huniq k q Hq Hn) as ->.
      split; [reflexivity | congruence].
    - intros [<- <-]. auto. }
  rewrite E, map_to_list_singleton. reflexivity.
Qed.

Lemma get_none (w : world) (name : string) :
  (forall k q, profiles w !! k = Some q -> username q <> name) ->
  Profile_objects_get name w = (Failed DoesNotExist, w).
Proof.
  intros Hno. unfold Profile_objects_get.
  assert (E : filter (fun kp : nat * Profile => username (snd kp) = name)
                     (profiles w) = ∅).
  { apply map_eq. intros k. rewrite lookup_empty.
    apply eq_None_not_Some. intros [q Hq].
    apply map_lookup_filter_Some in Hq as [Hq Hn]. exact (Hno k q Hq Hn). }
  rewrite E, map_to_list_empty. reflexivity.
Qed.

Lemma get_inv (w w' : world) (name : string) (r : outcome (nat * Profile)) :
  Profile_objects_get name w = (r, w') ->
  w' = w /\
  match r with
  | Done kp =>
      profiles w !! fst kp = Some (snd kp) /\ username (snd kp) = name /\
      (forall k q, profiles w !! k = Some q -> username q = name ->
                   k = fst kp)
  | Failed e =>
      (e = DoesNotExist /\
       forall k q, profiles w !! k = Some q -> username q <> name) \/
      (e = MultipleObjectsReturned /\
       exists k1 k2 q1 q2, k1 <> k2 /\
         profiles w !! k1 = Some q1 /\ profiles w !! k2 = Some q2 /\
         username q1 = name /\ username q2 = name)
  end.
Proof.
  unfold Profile_objects_get.
  set (F := filter (fun kp : nat * Profile => username (snd kp) = name)
                   (profiles w)).
  assert (Hin : forall k q, (k, q) ∈ map_to_list F <->
                            profiles w !! k = Some q /\ username q = name).
  { intros k q. rewrite elem_of_map_to_list. unfold F.
    rewrite map_lookup_filter_Some. reflexivity. }
  pose proof (NoDup_fst_map_to_list F) as Hnd.
  destruct (map_to_list F) as [| [k1 q1] [| [k2 q2] rest]];
    intros H; injection H as <- <-; (split; [reflexivity|]).
  - left. split; [reflexivity|]. intros k q Hq Hn.
    assert (Hk : (k, q) ∈ @nil (nat * Profile)) by (apply Hin; auto).
    inversion Hk.
  - simpl. destruct (proj1 (Hin k1 q1) ltac:(left)) as [Hq Hn].
    repeat split; try assumption.
    intros k q Hkq Hkn.
    assert (Hk : (k, q) ∈ [(k1, q1)]) by (apply Hin; auto).
    apply list_elem_of_singleton in Hk. congruence.
  - right. split; [reflexivity|].
    destruct (proj1 (Hin k1 q1) ltac:(left)) as [Hq1 Hn1].
    destruct (proj1 (Hin k2 q2) ltac:(right; left)) as [Hq2 Hn2].
    exists k1, k2, q1, q2. repeat split; try assumption.
    simpl in Hnd. apply NoDup_cons in Hnd as [Hnot _].
    intros ->. apply Hnot. left.
Qed.

(** ** [update_user_profile] *)

Lemma update_user_profile_unique
  (w : world) (user : string) (co2 points : Z) (pk : nat) (p : Profile) :
  profiles w !! pk = Some p -> username p = user ->
  (forall k q, profiles w !! k = Some q -> username q = user -> k = pk) ->
  update_user_profile user co2 points w =
  (Done tt,
   mkWorld (<[pk := mkProfile user (total_co2e_reduced p + co2)
                              (total_points p + points)]> (profiles w))
           (meals w) (stdout w)).
Proof.
  intros Hp Hname Huniq. unfold update_user_profile, and_then.
  rewrite (get_unique w user pk p Hp Hname Huniq).
  unfold Profile_save, credited. simpl. rewrite Hname. reflexivity.
Qed.

Lemma sample_world_ana (k : nat) (q : Profile) :
  profiles sample_world !! k = Some q -> username q = "ana" -> k = 7%nat.
Proof.
  unfold sample_world. cbn [profiles]. intros Hq Hn.
  apply lookup_insert_Some in Hq as [[<- _] | [_ Hq]]; [reflexivity|].
  apply lookup_insert_Some in Hq as [[_ <-] | [_ Hq]]; [discriminate|].
  rewrite lookup_empty in Hq. discriminate.
Qed.

(** X6. When exactly one profile has the username, [update_user_profile]
    returns, and the only change is on that row: its two totals grow by the
    amounts passed, its username and every other row, the meals and the
    output stay as they were. *)
Theorem X6_update_credits_the_profile
  (w : world) (user : string) (co2 points : Z) (pk : nat) (p : Profile) :
  profiles w !! pk = Some p -> username p = user ->
  (forall k q, profiles w !! k = Some q -> username q = user -> k = pk) ->
  update_user_profile user co2 points w =
  (Done tt,
   mkWorld (<[pk := mkProfile user (total_co2e_reduced p + co2)
                              (total_points p + points)]> (profiles w))
           (meals w) (stdout w)).
Proof. apply update_user_profile_unique. Qed.

Lemma X6_update_credits_the_profile_witness :
  update_user_profile "ana" 2820 1410 sample_world =
  (Done tt,
   mkWorld (<[7%nat := mkProfile "ana" (10 + 2820) (5 + 1410)]>
              (profiles sample_world)) ∅ []).
Proof.
  refine (X6_update_credits_the_profile sample_world
            "ana" 2820 1410 7%nat (mkProfile "ana" 10 5) _ _ _).
  - reflexivity.
  - reflexivity.
  - apply sample_world_ana.
Defined.

(** X7. [update_user_profile] fails only in the lookup, before anything is
    written: with [DoesNotExist] exactly when no profile has the username,
    with [MultipleObjectsReturned] exactly when two rows have it; the state
    is then the one it started in. *)
Theorem X7_update_failures (w : world) (user : string) (co2 points : Z) :
  ((forall k q, profiles w !! k = Some q -> username q <> user) <->
   update_user_profile user co2 points w = (Failed DoesNotExist, w)) /\
  ((exists k1 k2 q1 q2, k1 <> k2 /\
      profiles w !! k1 = Some q1 /\ profiles w !! k2 = Some q2 /\
      username q1 = user /\ username q2 = user) <->
   update_user_profile user co2 points w =
   (Failed MultipleObjectsReturned, w)) /\
  (forall e w', update_user_profile user co2 points w = (Failed e, w') ->
                w' = w /\ (e = DoesNotExist \/ e = MultipleObjectsReturned)).
Proof.
  unfold update_user_profile, and_then.
  destruct (Profile_objects_get user w) as [r w1] eqn:Hget.
  destruct (get_inv w w1 user r Hget) as [-> Hr].
  destruct r as [[k p] | e]; simpl in Hr.
  - destruct Hr as (Hp & Hn & Huniq). unfold Profile_save.
    split; [|split].
    + split; [|discriminate]. intros Hno. destruct (Hno k p Hp Hn).
    + split; [|discriminate].
      intros (k1 & k2 & q1 & q2 & Hne & H1 & H2 & Hn1 & Hn2).
      destruct Hne. rewrite (Huniq k1 q1 H1 Hn1), (Huniq k2 q2 H2 Hn2).
      reflexivity.
    + intros e w'. discriminate.
  - destruct Hr as [[-> Hno] | [-> Htwo]].
    + split; [|split].
      * split; auto.
      * split; [|discriminate].
        intros (k1 & _ & q1 & _ & _ & H1 & _ & Hn1 & _).
        destruct (Hno k1 q1 H1 Hn1).
      * intros e w' H. injection H as <- <-. auto.
    + split; [|split].
      * split; [|discriminate]. intros Hno.
        destruct Htwo as (k1 & _ & q1 & _ & _ & H1 & _ & Hn1 & _).
        destruct (Hno k1 q1 H1 Hn1).
      * split; auto.
      * intros e w' H. injection H as <- <-. auto.
Qed.

(** X8. Credits add up: two calls for the same, uniquely named, user have
    the effect of one call with the sums. *)
Theorem X8_updates_add_up
  (w : world) (user : string) (co2 points co2' points' : Z)
  (pk : nat) (p : Profile) :
  profiles w !! pk = Some p -> username p = user ->
  (forall k q, profiles w !! k = Some q -> username q = user -> k = pk) ->
  and_then (update_user_profile user co2 points)
           (fun _ => update_user_profile user co2' points') w =
  update_user_profile user (co2 + co2') (points + points') w.
Proof.
  intros Hp Hname Huniq. unfold and_then at 1.
  rewrite (update_user_profile_unique w user co2 points pk p
             Hp Hname Huniq).
  set (p1 := mkProfile user (total_co2e_reduced p + co2)
                       (total_points p + points)).
  rewrite (update_user_profile_unique
             (mkWorld (<[pk := p1]> (profiles w)) (meals w) (stdout w))
             user co2' points' pk p1).
  - rewrite (update_user_profile_unique w user (co2 + co2')
               (points + points') pk p Hp Hname Huniq).
    simpl. rewrite insert_insert_eq, !Z.add_assoc. reflexivity.
  - simpl. apply lookup_insert_eq.
  - reflexivity.
  - simpl. intros k q Hq Hn.
    apply lookup_insert_Some in Hq as [[<- _] | [_ Hq]]; [reflexivity|].
    exact (Huniq k q Hq Hn).
Qed.

Lemma X8_updates_add_up_witness :
  and_then (update_user_profile "ana" 1500 750)
           (fun _ => update_user_profile "ana" 2820 1410) sample_world =
  update_user_profile "ana" (1500 + 2820) (750 + 1410) sample_world.
Proof.
  refine (X8_updates_add_up sample_world "ana" 1500 750 2820 1410 7%nat
            (mkProfile "ana" 10 5) _ _ _).
  - reflexivity.
  - reflexivity.
  - apply sample_world_ana.
Defined.

(** * The view: [perform_create] *)

Lemma impact_of_reduction (d : gmap string bool) (co2 : Z) :
  calculate_co2_reduced d = Ok co2 ->
  exists pts, calculate_ecomeals_points co2 = Ok pts /\
              co2 = 2 * pts /\ 0 <= pts.
Proof.
  unfold calculate_co2_reduced, Py.getitem, bind.
  destruct (d !! "eco_breakfast") as [[|]|];
    [| destruct (d !! "eco_lunch") as [[|]|];
       [| destruct (d !! "eco_dinner") as [[|]|] |] |];
    intros H; try discriminate; injection H as <-.
  - exists 750. repeat split; try reflexivity; lia.
  - exists 1410. repeat split; try reflexivity; lia.
  - exists 1850. repeat split; try reflexivity; lia.
  - exists 0. repeat split; try reflexivity; lia.
Qed.

(** The body of the [try], once the validated data are read and the row is
    stored. *)
Lemma perform_create_try_stored
  (update : string -> Z -> Z -> action unit) (save : save_method)
  (request_data : gmap string bool) (data : ValidatedData) (w : world)
  (u : string) (b l dn : bool) (pk : nat) (inst : EcoMeals)
  (table : gmap nat EcoMeals) :
  data_user data = Some u ->
  data_flags data !! "eco_breakfast" = Some b ->
  data_flags data !! "eco_lunch" = Some l ->
  data_flags data !! "eco_dinner" = Some dn ->
  save data b l dn (meals w) = (Done (pk, inst), table) ->
  perform_create_try update save request_data data w =
  match calculate_co2_reduced request_data with
  | Raise e => (Failed (Builtin e), mkWorld (profiles w) table (stdout w))
  | Ok co2 =>
      match calculate_ecomeals_points co2 with
      | Raise e => (Failed (Builtin e), mkWorld (profiles w) table (stdout w))
      | Ok pts =>
          update u co2 pts
            (mkWorld (profiles w) (<[pk := with_impact inst co2 pts]> table)
                     (stdout w))
      end
  end.
Proof.
  intros Hu Hb Hl Hd Hsave.
  unfold perform_create_try, and_then, validated_user, validated_flag,
    serializer_save, Py.getitem.
  rewrite Hu, Hb, Hl, Hd. cbn [lift ret]. rewrite Hsave.
  destruct (calculate_co2_reduced request_data) as [co2 | e];
    [|reflexivity].
  cbn [lift ret]. cbn [meals profiles stdout].
  destruct (calculate_ecomeals_points co2) as [pts | e]; reflexivity.
Qed.

(** The body of the [try] fails before [update] is called, with the
    profiles and the output untouched, or reaches the call of [update] with
    the row stored and its impact written. *)
Lemma perform_create_try_cases
  (update : string -> Z -> Z -> action unit) (save : save_method)
  (request_data : gmap string bool) (data : ValidatedData) (w : world) :
  (exists e table,
     perform_create_try update save request_data data w =
     (Failed e, mkWorld (profiles w) table (stdout w))) \/
  (exists u co2 pts table,
     data_user data = Some u /\
     calculate_co2_reduced request_data = Ok co2 /\
     calculate_ecomeals_points co2 = Ok pts /\
     perform_create_try update save request_data data w =
     update u co2 pts (mkWorld (profiles w) table (stdout w))).
Proof.
  destruct w as [ps ms out].
  destruct (data_user data) as [u|] eqn:Hu;
    [| left; eexists; exists ms;
       unfold perform_create_try, and_then, validated_user;
       rewrite Hu; reflexivity].
  destruct (data_flags data !! "eco_breakfast") as [b|] eqn:Hb;
    [| left; eexists; exists ms;
       unfold perform_create_try, and_then, validated_user, validated_flag,
         Py.getitem;
       rewrite Hu, Hb; reflexivity].
  destruct (data_flags data !! "eco_lunch") as [l|] eqn:Hl;
    [| left; eexists; exists ms;
       unfold perform_create_try, and_then, validated_user, validated_flag,
         Py.getitem;
       rewrite Hu, Hb, Hl; reflexivity].
  destruct (data_flags data !! "eco_dinner") as [dn|] eqn:Hd;
    [| left; eexists; exists ms;
       unfold perform_create_try, and_then, validated_user, validated_flag,
         Py.getitem;
       rewrite Hu, Hb, Hl, Hd; reflexivity].
  destruct (save data b l dn ms) as [[[pk inst] | e] table] eqn:Hsave.
  - rewrite (perform_create_try_stored update save request_data data
               (mkWorld ps ms out) u b l dn pk inst table Hu Hb Hl Hd Hsave).
    cbn [profiles stdout].
    destruct (calculate_co2_reduced request_data) as [co2 | e] eqn:Hco2;
      [| left; eauto].
    destruct (calculate_ecomeals_points co2) as [pts | e] eqn:Hpts;
      [| left; eauto].
    right. exists u, co2, pts, (<[pk := with_impact inst co2 pts]> table).
    auto.
  - left. exists e, table.
    unfold perform_create_try, and_then, validated_user, validated_flag,
      serializer_save, Py.getitem.
    rewrite Hu, Hb, Hl, Hd. cbn [lift ret meals]. rewrite Hsave.
    reflexivity.
Qed.

Lemma update_user_profile_cases (u : string) (co2 pts : Z) (w : world) :
  (exists k q,
     profiles w !! k = Some q /\ username q = u /\
     update_user_profile u co2 pts w =
     (Done tt, mkWorld (<[k := credited q co2 pts]> (profiles w))
                       (meals w) (stdout w))) \/
  (exists e, update_user_profile u co2 pts w = (Failed e, w)).
Proof.
  unfold update_user_profile, and_then.
  destruct (Profile_objects_get u w) as [r w1] eqn:Hget.
  destruct (get_inv w w1 u r Hget) as [-> Hr].
  destruct r as [[k q] | e]; simpl in Hr.
  - left. exists k, q. destruct Hr as (Hq & Hn & _). auto.
  - right. eauto.
Qed.

(** What a run of [perform_create] does to the profiles and to the output:
    nothing and one line, or one credit and no line. *)
Lemma perform_create_cases (save : save_method)
  (request_data : gmap string bool) (data : ValidatedData) (w : world) :
  (profiles (perform_create save request_data data w) = profiles w /\
   stdout (perform_create save request_data data w) =
   stdout w ++ [error_message]) \/
  (exists u k q co2 pts,
     data_user data = Some u /\
     profiles w !! k = Some q /\ username q = u /\
     co2 = 2 * pts /\ 0 <= pts /\
     profiles (perform_create save request_data data w) =
     <[k := credited q co2 pts]> (profiles w) /\
     stdout (perform_create save request_data data w) = stdout w).
Proof.
  unfold perform_create, try_except.
  destruct (perform_create_try_cases update_user_profile save request_data
              data w)
    as [(e & table & ->) | (u & co2 & pts & table & Hu & Hco2 & Hpts & ->)].
  - left. split; reflexivity.
  - destruct (impact_of_reduction request_data co2 Hco2)
      as (pts' & Hpts' & Hhalf & Hpos).
    rewrite Hpts in Hpts'. injection Hpts' as <-.
    destruct (update_user_profile_cases u co2 pts
                (mkWorld (profiles w) table (stdout w)))
      as [(k & q & Hq & Hn & ->) | (e & ->)].
    + right. exists u, k, q, co2, pts. cbn [profiles stdout] in *.
      repeat split; assumption.
    + left. split; reflexivity.
Qed.

(** ** The request that goes through *)

(** X9. With complete validated data, a [save] that stores the row, the
    three flags in the request and exactly one profile of that username,
    [perform_create] leaves the row with its reduction and its points
    written, that profile credited with both, and prints nothing. *)
Theorem X9_perform_create_credits
  (save : save_method) (request_data : gmap string bool)
  (data : ValidatedData) (w : world) (u : string) (b l dn : bool)
  (pk : nat) (inst : EcoMeals) (table : gmap nat EcoMeals)
  (k : nat) (p : Profile) :
  data_user data = Some u ->
  data_flags data !! "eco_breakfast" = Some b ->
  data_flags data !! "eco_lunch" = Some l ->
  data_flags data !! "eco_dinner" = Some dn ->
  save data b l dn (meals w) = (Done (pk, inst), table) ->
  well_formed request_data ->
  profiles w !! k = Some p -> username p = u ->
  (forall k' q, profiles w !! k' = Some q -> username q = u -> k' = k) ->
  exists co2 pts,
    calculate_co2_reduced request_data = Ok co2 /\
    calculate_ecomeals_points co2 = Ok pts /\
    perform_create save request_data data w =
    mkWorld (<[k := mkProfile u (total_co2e_reduced p + co2)
                              (total_points p + pts)]> (profiles w))
            (<[pk := with_impact inst co2 pts]> table)
            (stdout w).
Proof.
  intros Hu Hb Hl Hd Hsave Hwf Hp Hn Huniq.
  destruct (pipeline request_data Hwf) as (co2 & pts & Hco2 & Hpts & _).
  exists co2, pts. split; [exact Hco2|]. split; [exact Hpts|].
  unfold perform_create, try_except.
  rewrite (perform_create_try_stored update_user_profile save request_data
             data w u b l dn pk inst table Hu Hb Hl Hd Hsave).
  rewrite Hco2, Hpts.
  rewrite (update_user_profile_unique
             (mkWorld (profiles w) (<[pk := with_impact inst co2 pts]> table)
                      (stdout w))
             u co2 pts k p Hp Hn Huniq).
  reflexivity.
Qed.

Lemma X9_perform_create_credits_witness :
  exists co2 pts,
    calculate_co2_reduced (selection false true true) = Ok co2 /\
    calculate_ecomeals_points co2 = Ok pts /\
    perform_create sample_save (selection false true true)
      (mkValidatedData (Some "ana") (selection false true true))
      sample_world =
    mkWorld (<[7%nat := mkProfile "ana" (10 + co2) (5 + pts)]>
               (profiles sample_world))
            (<[0%nat := with_impact (mkEcoMeals "ana" false true true 0 0)
                                    co2 pts]>
               (<[0%nat := mkEcoMeals "ana" false true true 0 0]> ∅))
            [].
Proof.
  refine (X9_perform_create_credits sample_save (selection false true true)
            (mkValidatedData (Some "ana") (selection false true true))
            sample_world "ana" false true true
            0%nat (mkEcoMeals "ana" false true true 0 0)
            (<[0%nat := mkEcoMeals "ana" false true true 0 0]> ∅)
            7%nat (mkProfile "ana" 10 5) _ _ _ _ _ _ _ _ _);
    try reflexivity.
  - repeat split; eexists; reflexivity.
  - apply sample_world_ana.
Defined.

(** ** Requests that fail on the way *)

(** X10. When no profile has the username, the row is stored all the same,
    with its reduction and its points, nobody is credited, and the fixed
    line is printed: the failure of the last step undoes nothing. *)
Theorem X10_perform_create_without_profile
  (save : save_method) (request_data : gmap string bool)
  (data : ValidatedData) (w : world) (u : string) (b l dn : bool)
  (pk : nat) (inst : EcoMeals) (table : gmap nat EcoMeals) :
  data_user data = Some u ->
  data_flags data !! "eco_breakfast" = Some b ->
  data_flags data !! "eco_lunch" = Some l ->
  data_flags data !! "eco_dinner" = Some dn ->
  save data b l dn (meals w) = (Done (pk, inst), table) ->
  well_formed request_data ->
  (forall k q, profiles w !! k = Some q -> username q <> u) ->
  exists co2 pts,
    calculate_co2_reduced request_data = Ok co2 /\
    calculate_ecomeals_points co2 = Ok pts /\
    perform_create save request_data data w =
    mkWorld (profiles w)
            (<[pk := with_impact inst co2 pts]> table)
            (stdout w ++ ["An error has occurred: {e}"]).
Proof.
  intros Hu Hb Hl Hd Hsave Hwf Hno.
  destruct (pipeline request_data Hwf) as (co2 & pts & Hco2 & Hpts & _).
  exists co2, pts. split; [exact Hco2|]. split; [exact Hpts|].
  unfold perform_create, try_except.
  rewrite (perform_create_try_stored update_user_profile save request_data
             data w u b l dn pk inst table Hu Hb Hl Hd Hsave).
  rewrite Hco2, Hpts.
  unfold update_user_profile, and_then.
  rewrite get_none by exact Hno. reflexivity.
Qed.

Lemma X10_perform_create_without_profile_witness :
  exists co2 pts,
    calculate_co2_reduced (selection true false false) = Ok co2 /\
    calculate_ecomeals_points co2 = Ok pts /\
    perform_create sample_save (selection true false false)
      (mkValidatedData (Some "cy") (selection true false false))
      sample_world =
    mkWorld (profiles sample_world)
            (<[0%nat := with_impact (mkEcoMeals "cy" true false false 0 0)
                                    co2 pts]>
               (<[0%nat := mkEcoMeals "cy" true false false 0 0]> ∅))
            ([] ++ ["An error has occurred: {e}"]).
Proof.
  refine (X10_perform_create_without_profile sample_save
            (selection true false false)
            (mkValidatedData (Some "cy") (selection true false false))
            sample_world "cy" true false false
            0%nat (mkEcoMeals "cy" true false false 0 0)
            (<[0%nat := mkEcoMeals "cy" true false false 0 0]> ∅)
            _ _ _ _ _ _ _);
    try reflexivity.
  - repeat split; eexists; reflexivity.
  - unfold sample_world. cbn [profiles]. intros k q Hq.
    apply lookup_insert_Some in Hq as [[_ <-] | [_ Hq]]; [discriminate|].
    apply lookup_insert_Some in Hq as [[_ <-] | [_ Hq]]; [discriminate|].
    rewrite lookup_empty in Hq. discriminate.
Defined.

(** X11. When the validated data lack the user or one of the three flags,
    [save] is not called: nothing is stored, nobody is credited, the fixed
    line is printed.  All three flags are read here, also behind a true
    one, unlike in the calculator. *)
Theorem X11_perform_create_incomplete_data
  (save : save_method) (request_data : gmap string bool)
  (data : ValidatedData) (w : world) :
  data_user data = None \/
  data_flags data !! "eco_breakfast" = None \/
  data_flags data !! "eco_lunch" = None \/
  data_flags data !! "eco_dinner" = None ->
  perform_create save request_data data w =
  mkWorld (profiles w) (meals w)
          (stdout w ++ ["An error has occurred: {e}"]).
Proof.
  intros H.
  unfold perform_create, try_except, perform_create_try, and_then,
    validated_user, validated_flag, Py.getitem.
  destruct (data_user data) as [u|]; [|reflexivity].
  cbn [ret].
  destruct (data_flags data !! "eco_breakfast") as [b|]; [|reflexivity].
  cbn [lift ret].
  destruct (data_flags data !! "eco_lunch") as [l|]; [|reflexivity].
  cbn [lift ret].
  destruct (data_flags data !! "eco_dinner") as [dn|]; [|reflexivity].
  exfalso. destruct H as [H | [H | [H | H]]]; discriminate.
Qed.

Lemma X11_perform_create_incomplete_data_witness :
  perform_create sample_save (selection true false false)
    (mkValidatedData (Some "ana") {["eco_breakfast" := true]})
    sample_world =
  mkWorld (profiles sample_world) (meals sample_world)
          (stdout sample_world ++ ["An error has occurred: {e}"]).
Proof.
  apply (X11_perform_create_incomplete_data sample_save
           (selection true false false)
           (mkValidatedData (Some "ana") {["eco_breakfast" := true]})
           sample_world).
  right. right. left. reflexivity.
Defined.

(** X12. The calculator reads the raw request, not the validated data:
    when the request lacks a flag the calculator needs, the row stays as
    [save] stored it, without reduction or points written, nobody is
    credited, and the fixed line is printed. *)
Theorem X12_perform_create_raw_request
  (save : save_method) (request_data : gmap string bool)
  (data : ValidatedData) (w : world) (u : string) (b l dn : bool)
  (pk : nat) (inst : EcoMeals) (table : gmap nat EcoMeals) (e : exn) :
  data_user data = Some u ->
  data_flags data !! "eco_breakfast" = Some b ->
  data_flags data !! "eco_lunch" = Some l ->
  data_flags data !! "eco_dinner" = Some dn ->
  save data b l dn (meals w) = (Done (pk, inst), table) ->
  calculate_co2_reduced request_data = Raise e ->
  perform_create save request_data data w =
  mkWorld (profiles w) table (stdout w ++ ["An error has occurred: {e}"]).
Proof.
  intros Hu Hb Hl Hd Hsave Hraise.
  unfold perform_create, try_except.
  rewrite (perform_create_try_stored update_user_profile save request_data
             data w u b l dn pk inst table Hu Hb Hl Hd Hsave).
  rewrite Hraise. reflexivity.
Qed.

Lemma X12_perform_create_raw_request_witness :
  perform_create sample_save ∅
    (mkValidatedData (Some "ana") (selection true false false))
    sample_world =
  mkWorld (profiles sample_world)
          (<[0%nat := mkEcoMeals "ana" true false false 0 0]> ∅)
          (stdout sample_world ++ ["An error has occurred: {e}"]).
Proof.
  apply (X12_perform_create_raw_request sample_save ∅
           (mkValidatedData (Some "ana") (selection true false false))
           sample_world "ana" true false false
           0%nat (mkEcoMeals "ana" true false false 0 0)
           (<[0%nat := mkEcoMeals "ana" true false false 0 0]> ∅)
           (KeyError "eco_breakfast"));
    reflexivity.
Defined.

(** ** The file that does not import [Profile] *)

(** X13. In [airbnb_ecomeals_coding_sample.py] no request ever credits a
    profile: whatever the serializer, the request and the state, the
    profiles are left as they were and the fixed line is printed, since
    [update_user_profile] stops on the unbound name [Profile] when it is
    reached at all. *)
Theorem X13_airbnb_never_credits
  (save : save_method) (request_data : gmap string bool)
  (data : ValidatedData) (w : world) :
  profiles (Airbnb.perform_create save request_data data w) = profiles w /\
  stdout (Airbnb.perform_create save request_data data w) =
  stdout w ++ ["An error has occurred: {e}"].
Proof.
  unfold Airbnb.perform_create, try_except.
  destruct (perform_create_try_cases Airbnb.update_user_profile save
              request_data data w)
    as [(e & table & ->) | (u & co2 & pts & table & _ & _ & _ & ->)];
    split; reflexivity.
Qed.

(** X14. In that file a complete, well-formed request still has its row
    stored with its reduction and its points, although the profile of the
    user, whether it exists or not, is not credited. *)
Theorem X14_airbnb_stores_the_meal
  (save : save_method) (request_data : gmap string bool)
  (data : ValidatedData) (w : world) (u : string) (b l dn : bool)
  (pk : nat) (inst : EcoMeals) (table : gmap nat EcoMeals) :
  data_user data = Some u ->
  data_flags data !! "eco_breakfast" = Some b ->
  data_flags data !! "eco_lunch" = Some l ->
  data_flags data !! "eco_dinner" = Some dn ->
  save data b l dn (meals w) = (Done (pk, inst), table) ->
  well_formed request_data ->
  exists co2 pts,
    calculate_co2_reduced request_data = Ok co2 /\
    calculate_ecomeals_points co2 = Ok pts /\
    Airbnb.perform_create save request_data data w =
    mkWorld (profiles w)
            (<[pk := with_impact inst co2 pts]> table)
            (stdout w ++ ["An error has occurred: {e}"]).
Proof.
  intros Hu Hb Hl Hd Hsave Hwf.
  destruct (pipeline request_data Hwf) as (co2 & pts & Hco2 & Hpts & _).
  exists co2, pts. split; [exact Hco2|]. split; [exact Hpts|].
  unfold Airbnb.perform_create, try_except.
  rewrite (perform_create_try_stored Airbnb.update_user_profile save
             request_data data w u b l dn pk inst table Hu Hb Hl Hd Hsave).
  rewrite Hco2, Hpts. reflexivity.
Qed.

Lemma X14_airbnb_stores_the_meal_witness :
  exists co2 pts,
    calculate_co2_reduced (selection false true true) = Ok co2 /\
    calculate_ecomeals_points co2 = Ok pts /\
    Airbnb.perform_create sample_save (selection false true true)
      (mkValidatedData (Some "ana") (selection false true true))
      sample_world =
    mkWorld (profiles sample_world)
            (<[0%nat := with_impact (mkEcoMeals "ana" false true true 0 0)
                                    co2 pts]>
               (<[0%nat := mkEcoMeals "ana" false true true 0 0]> ∅))
            ([] ++ ["An error has occurred: {e}"]).
Proof.
  refine (X14_airbnb_stores_the_meal sample_save (selection false true true)
            (mkValidatedData (Some "ana") (selection false true true))
            sample_world "ana" false true true
            0%nat (mkEcoMeals "ana" false true true 0 0)
            (<[0%nat := mkEcoMeals "ana" false true true 0 0]> ∅)
            _ _ _ _ _ _);
    try reflexivity.
  repeat split; eexists; reflexivity.
Defined.

(** ** What every request preserves *)

(** X15. Whatever the request and the serializer, [perform_create] adds no
    profile and removes none, keeps every username, lowers no total, and
    changes no profile other than one of the validated user. *)
Theorem X15_perform_create_only_credits
  (save : save_method) (request_data : gmap string bool)
  (data : ValidatedData) (w : world) (k : nat) :
  match profiles w !! k with
  | None => profiles (perform_create save request_data data w) !! k = None
  | Some p =>
      exists p',
        profiles (perform_create save request_data data w) !! k = Some p' /\
        username p' = username p /\
        total_co2e_reduced p <= total_co2e_reduced p' /\
        total_points p <= total_points p' /\
        (p' <> p -> data_user data = Some (username p))
  end.
Proof.
  destruct (perform_create_cases save request_data data w)
    as [[-> _] | (u & k0 & q & co2 & pts & Hu & Hq & Hn & Hhalf & Hpos
                   & -> & _)].
  - destruct (profiles w !! k) as [p|]; [|reflexivity].
    exists p. repeat split; try lia. intros H. destruct H. reflexivity.
  - destruct (decide (k0 = k)) as [-> | Hne].
    + rewrite Hq, lookup_insert_eq. exists (credited q co2 pts).
      unfold credited. cbn. repeat split; try lia.
      intros _. rewrite Hn. exact Hu.
    + rewrite lookup_insert_ne by exact Hne.
      destruct (profiles w !! k) as [p|]; [|reflexivity].
      exists p. repeat split; try lia. intros H. destruct H. reflexivity.
Qed.

(** X16. If every profile holds twice as many grams as points before a
    request, every profile does after it: a credit is a reduction of 0,
    1500, 2820 or 3700 g with exactly half as many points. *)
Theorem X16_perform_create_keeps_balance
  (save : save_method) (request_data : gmap string bool)
  (data : ValidatedData) (w : world) :
  balanced (profiles w) ->
  balanced (profiles (perform_create save request_data data w)).
Proof.
  intros Hbal.
  destruct (perform_create_cases save request_data data w)
    as [[-> _] | (u & k0 & q & co2 & pts & Hu & Hq & Hn & Hhalf & Hpos
                   & -> & _)]; [exact Hbal|].
  unfold balanced. apply map_Forall_insert_2; [|exact Hbal].
  pose proof (Hbal k0 q Hq) as Hq2. cbn in Hq2.
  unfold credited. cbn. lia.
Qed.

Lemma sample_world_balanced : balanced (profiles sample_world).
Proof.
  unfold balanced, sample_world. cbn [profiles].
  apply map_Forall_insert_2; [reflexivity|].
  apply map_Forall_insert_2; [reflexivity|].
  apply map_Forall_empty.
Qed.

Lemma X16_perform_create_keeps_balance_witness :
  balanced
    (profiles
       (perform_create sample_save (selection false true true)
          (mkValidatedData (Some "ana") (selection false true true))
          sample_world)).
Proof.
  apply (X16_perform_create_keeps_balance sample_save
           (selection false true true)
           (mkValidatedData (Some "ana") (selection false true true))
           sample_world).
  apply sample_world_balanced.
Defined.

(** ** Listing what was stored *)

Lemma update_user_profile_meals (u : string) (co2 pts : Z) (w : world) :
  meals (snd (update_user_profile u co2 pts w)) = meals w /\
  meals (try_except (update_user_profile u co2 pts) w) = meals w.
Proof.
  unfold try_except.
  destruct (update_user_profile_cases u co2 pts w)
    as [(k & q & _ & _ & ->) | (e & ->)]; split; reflexivity.
Qed.

(** X17. Once [save] has stored the row and the calculator has read the
    request, [get_queryset] lists the row with its reduction and its
    points, whether the profile could be credited or not. *)
Theorem X17_stored_meal_is_listed
  (save : save_method) (request_data : gmap string bool)
  (data : ValidatedData) (w : world) (u : string) (b l dn : bool)
  (pk : nat) (inst : EcoMeals) (table : gmap nat EcoMeals) (co2 : Z) :
  data_user data = Some u ->
  data_flags data !! "eco_breakfast" = Some b ->
  data_flags data !! "eco_lunch" = Some l ->
  data_flags data !! "eco_dinner" = Some dn ->
  save data b l dn (meals w) = (Done (pk, inst), table) ->
  calculate_co2_reduced request_data = Ok co2 ->
  exists pts,
    calculate_ecomeals_points co2 = Ok pts /\ co2 = 2 * pts /\
    with_impact inst co2 pts ∈
      get_queryset (perform_create save request_data data w).
Proof.
  intros Hu Hb Hl Hd Hsave Hco2.
  destruct (impact_of_reduction request_data co2 Hco2)
    as (pts & Hpts & Hhalf & _).
  exists pts. split; [exact Hpts|]. split; [exact Hhalf|].
  assert (Hmeals : meals (perform_create save request_data data w) =
                   <[pk := with_impact inst co2 pts]> table).
  { unfold perform_create, try_except.
    rewrite (perform_create_try_stored update_user_profile save request_data
               data w u b l dn pk inst table Hu Hb Hl Hd Hsave).
    rewrite Hco2, Hpts.
    set (w1 := mkWorld (profiles w) (<[pk := with_impact inst co2 pts]> table)
                       (stdout w)).
    exact (proj2 (update_user_profile_meals u co2 pts w1)). }
  unfold get_queryset. rewrite Hmeals.
  apply list_elem_of_fmap. exists (pk, with_impact inst co2 pts).
  split; [reflexivity|].
  apply elem_of_map_to_list. apply lookup_insert_eq.
Qed.

Lemma X17_stored_meal_is_listed_witness :
  exists pts,
    calculate_ecomeals_points 3700 = Ok pts /\ 3700 = 2 * pts /\
    with_impact (mkEcoMeals "cy" false false true 0 0) 3700 pts ∈
      get_queryset
        (perform_create sample_save (selection false false true)
           (mkValidatedData (Some "cy") (selection false false true))
           sample_world).
Proof.
  apply (X17_stored_meal_is_listed sample_save (selection false false true)
           (mkValidatedData (Some "cy") (selection false false true))
           sample_world "cy" false false true
           0%nat (mkEcoMeals "cy" false false true 0 0)
           (<[0%nat := mkEcoMeals "cy" false false true 0 0]> ∅) 3700);
    reflexivity.
Defined.
